(** * Placement API: the allocation-candidates handler

    A shallow embedding of [placement/handlers/allocation_candidate.py]:
    the three response transformers, the version-dependent choice between
    them, and the handler [list_allocation_candidates] with the calls it
    makes to its collaborators. *)

From stdpp Require Import base option list strings gmap.
From stdpp Require Import pretty.
From Stdlib Require Import ZArith Lia DecimalString Ascii.

#[local] Set Warnings "-register-all".

Open Scope string_scope.
Open Scope list_scope.
Open Scope Z_scope.

(** ** Python dictionaries

    A [dict] keeps its keys in insertion order and holds each key once:
    assigning to a key that is present replaces the value where it stands,
    assigning to a new key appends it.  [.items()] walks that order, which
    is what the flat-list transformer iterates over. *)

Module PyDict.

Definition pydict (V : Type) : Type := list (string * V).

Definition empty {V} : pydict V := [].

(** [d[k]] for a key that may be missing. *)
Fixpoint dict_get {V} (k : string) (d : pydict V) : option V :=
  match d with
  | [] => None
  | (k', v) :: d' => if decide (k = k') then Some v else dict_get k d'
  end.

(** [d[k] = v] *)
Fixpoint dict_set {V} (k : string) (v : V) (d : pydict V) : pydict V :=
  match d with
  | [] => [(k, v)]
  | (k', v') :: d' =>
      if decide (k = k') then (k', v) :: d' else (k', v') :: dict_set k v d'
  end.

Definition keys {V} (d : pydict V) : list string := d.*1.

Definition items {V} (d : pydict V) : list (string * V) := d.

(** [collections.defaultdict(factory)[k]]: a missing key is first bound to
    [factory()]; the value found and the dictionary after the lookup. *)
Definition defaultdict_getitem {V} (factory : V) (k : string) (d : pydict V)
  : V * pydict V :=
  match dict_get k d with
  | Some v => (v, d)
  | None => (factory, dict_set k factory d)
  end.

(** The dictionary with every value replaced by its image. *)
Definition map_values {V W} (f : V -> W) (d : pydict V) : pydict W :=
  prod_map id f <$> d.

End PyDict.
Import PyDict.

(** ** JSON-serializable Python values, as the transformers return them *)

Inductive pyval : Type :=
| PInt (z : Z)
| PStr (s : string)
| PList (l : list pyval)
| PDict (d : list (string * pyval)).

Definition as_dict (v : pyval) : option (pydict pyval) :=
  match v with PDict d => Some d | _ => None end.

(** [v[k]] on a value that should be a dictionary. *)
Definition getitem (k : string) (v : pyval) : option pyval :=
  as_dict v ≫= dict_get k.

(** ** The objects of the matching engine *)

Record ResourceProvider := { uuid : string }.

Record ResourceRequest := {
  rr_resource_provider : ResourceProvider;
  rr_resource_class : string;
  amount : Z
}.

Record AllocationRequest := {
  resource_requests : list ResourceRequest
}.

Record ProviderSummaryResource := {
  psr_resource_class : string;
  capacity : Z;
  used : Z
}.

Record Trait := { name : string }.

Record ProviderSummary := {
  ps_resource_provider : ResourceProvider;
  ps_resources : list ProviderSummaryResource;
  traits : list Trait
}.

Record AllocationCandidates := {
  allocation_requests : list AllocationRequest;
  provider_summaries : list ProviderSummary
}.

(** ** The transformers *)

(** One turn of the inner loop of [_transform_allocation_requests_dict]:
<<
    res_dict = rp_resources[rr.resource_provider.uuid]['resources']
    res_dict[rr.resource_class] = rr.amount
>>
    [rp_resources] is a [defaultdict] whose factory is
    [dict(resources={})].  [res_dict] is the very dictionary stored under
    ['resources'], so the assignment shows in [rp_resources]. *)
Definition dict_loop_body (rp_resources : pydict (pydict (pydict Z)))
    (rr : ResourceRequest) : pydict (pydict (pydict Z)) :=
  let rp_uuid := uuid (rr_resource_provider rr) in
  let '(entry, rp_resources) :=
    defaultdict_getitem [("resources", empty)] rp_uuid rp_resources in
  (* the factory always binds 'resources': the lookup cannot miss *)
  let res_dict := default empty (dict_get "resources" entry) in
  let res_dict := dict_set (rr_resource_class rr) (amount rr) res_dict in
  dict_set rp_uuid (dict_set "resources" res_dict entry) rp_resources.

Definition py_resources (resources : pydict Z) : pyval :=
  PDict (map_values PInt resources).

Definition py_rp_resources (rp_resources : pydict (pydict (pydict Z))) : pyval :=
  PDict (map_values (fun entry => PDict (map_values py_resources entry))
           rp_resources).

Definition _transform_allocation_requests_dict
    (alloc_reqs : list AllocationRequest) : list pyval :=
  foldl (fun results ar =>
           let rp_resources :=
             foldl dict_loop_body empty (resource_requests ar) in
           results ++ [PDict [("allocations", py_rp_resources rp_resources)]])
        [] alloc_reqs.

(** One turn of the inner loop of [_transform_allocation_requests_list]:
<<
    res_dict = provider_resources[rr.resource_provider.uuid]
    res_dict[rr.resource_class] = rr.amount
>>
    with [provider_resources = collections.defaultdict(dict)]. *)
Definition list_loop_body (provider_resources : pydict (pydict Z))
    (rr : ResourceRequest) : pydict (pydict Z) :=
  let rp_uuid := uuid (rr_resource_provider rr) in
  let '(res_dict, provider_resources) :=
    defaultdict_getitem empty rp_uuid provider_resources in
  let res_dict := dict_set (rr_resource_class rr) (amount rr) res_dict in
  dict_set rp_uuid res_dict provider_resources.

Definition _transform_allocation_requests_list
    (alloc_reqs : list AllocationRequest) : list pyval :=
  foldl (fun results ar =>
           let provider_resources :=
             foldl list_loop_body empty (resource_requests ar) in
           let allocs :=
             (fun '(rp_uuid, resources) =>
                PDict [("resource_provider", PDict [("uuid", PStr rp_uuid)]);
                       ("resources", py_resources resources)])
               <$> items provider_resources in
           let alloc := PDict [("allocations", PList allocs)] in
           results ++ [alloc])
        [] alloc_reqs.

(** The dict comprehension over [ps.resources]: a resource class met twice
    keeps the later capacity and usage. *)
Definition summary_resources (ps : ProviderSummary) : pydict pyval :=
  foldl (fun resources psr =>
           dict_set (psr_resource_class psr)
             (PDict [("capacity", PInt (capacity psr));
                     ("used", PInt (used psr))])
             resources)
        empty (ps_resources ps).

(** [ret[k][field] = v] on the dictionary stored under [k]. *)
Definition setitem_at (k field : string) (v : pyval) (ret : pydict pyval)
  : pydict pyval :=
  match dict_get k ret with
  | Some (PDict entry) => dict_set k (PDict (dict_set field v entry)) ret
  | _ => ret
  end.

Definition _transform_provider_summaries (p_sums : list ProviderSummary)
    (include_traits : bool) : pydict pyval :=
  foldl (fun ret ps =>
           let resources := summary_resources ps in
           let rp_uuid := uuid (ps_resource_provider ps) in
           let ret := dict_set rp_uuid (PDict [("resources", PDict resources)]) ret in
           if include_traits
           then setitem_at rp_uuid "traits"
                  (PList ((fun t => PStr (name t)) <$> traits ps)) ret
           else ret)
        empty p_sums.

(** ** Microversions *)

Module Microversion.

(** A version is the pair [(major, minor)]; thresholds are written as
    tuples, [(1, 12)]. *)
Definition Version : Type := Z * Z.

(** The order of versions: by major revision, then by minor revision. *)
Definition version_le (a b : Version) : Prop :=
  a.1 < b.1 \/ (a.1 = b.1 /\ a.2 <= b.2).

Definition version_lt (a b : Version) : Prop :=
  a.1 < b.1 \/ (a.1 = b.1 /\ a.2 < b.2).

(** Modelled from the spec: [microversion.Version.matches] is not under
    src/.  The spec's data model gives it as the comparison
    "version >= threshold" on [(major, minor)] pairs; Python compares the
    tuples component by component. *)
Definition matches (want_version threshold : Version) : bool :=
  if threshold.1 =? want_version.1
  then threshold.2 <=? want_version.2
  else threshold.1 <? want_version.1.

#[export] Instance version_le_dec (a b : Version) : Decision (version_le a b).
Proof. unfold version_le. apply _. Defined.

End Microversion.
Import Microversion.

(** [_transform_allocation_candidates]: the dictionary with the two
    top-level fields of the response. *)
Definition _transform_allocation_candidates (alloc_cands : AllocationCandidates)
    (want_version : Version) : pyval :=
  let a_reqs :=
    if matches want_version (1, 12)
    then _transform_allocation_requests_dict (allocation_requests alloc_cands)
    else _transform_allocation_requests_list (allocation_requests alloc_cands) in
  let include_traits := matches want_version (1, 17) in
  let p_sums :=
    _transform_provider_summaries (provider_summaries alloc_cands)
      include_traits in
  PDict [("allocation_requests", PList a_reqs);
         ("provider_summaries", PDict p_sums)].

(** ** The handler and its collaborators *)

(** The query schemas of [placement.schemas.allocation_candidate], by name. *)
Inductive Schema : Type :=
| GET_SCHEMA_1_10
| GET_SCHEMA_1_16
| GET_SCHEMA_1_17
| GET_SCHEMA_1_21.

(** The exceptions the handler meets.  [HTTPBadRequest] is
    [webob.exc.HTTPBadRequest], the response with status 400; the two
    [NotFound] classes come from [placement.exception] and carry the name
    that was not found; every other exception is [OtherException]. *)
Inductive exn : Type :=
| ResourceClassNotFound (resource_class : string)
| TraitNotFound (names : string)
| HTTPBadRequest (explanation : string)
| OtherException (class_name : string) (args : string).

(** [req.GET]: a multi-dictionary, one pair per occurrence of a parameter. *)
Definition MultiDict : Type := list (string * string).

Definition getall (k : string) (d : MultiDict) : list string :=
  (filter (fun kv => kv.1 = k) d).*2.

(** What the handler passes as [limit]: the empty list that [getall]
    returned, or the integer read from the first occurrence. *)
Inductive Limit : Type :=
| LimitEmptyList
| LimitInt (n : Z).

(** How a computation ends: with a value, or with an exception raised. *)
Inductive outcome (A : Type) : Type :=
| Return (a : A)
| Raise (exc : exn).
Arguments Return {A} a.
Arguments Raise {A} exc.

(** Everything the handler calls that lives outside this module. *)
Class Collaborators := {
  Context : Type;
  RequestGroups : Type;
  Timestamp : Type;
  (** [microversion.version_handler(min_ver)] at a call: the exception it
      raises for a version the handler does not serve, [None] where it
      hands the request on *)
  version_refused : string -> Version -> option exn;
  (** [util.check_accept(types)] at a call: the exception it raises for an
      [Accept] header that takes none of the types, [None] where it hands
      the request on *)
  accept_refused : list string -> option string -> option exn;
  (** [jsonschema]: the description of the first violated constraint *)
  schema_violation : Schema -> MultiDict -> option string;
  (** [util.parse_qs_request_groups] *)
  parse_qs_request_groups : MultiDict -> exn + RequestGroups;
  (** [rp_obj.AllocationCandidates.get_by_requests], the matching engine *)
  get_by_requests : Context -> RequestGroups -> Limit -> exn + AllocationCandidates;
  (** the builtin [int] on a string; [ValueError] on a malformed one *)
  int : string -> exn + Z;
  (** the text of an exception, as [six.text_type] and [%s] give it *)
  text_type : exn -> string;
  (** [jsonutils.dumps] followed by [encodeutils.to_utf8] *)
  dumps : pyval -> string;
  to_utf8 : string -> list Byte.byte;
  (** the clock read by [timeutils.utcnow(with_timezone=True)] *)
  utcnow : Timestamp
}.

Section Handler.
Context `{Collaborators}.

Record Response := {
  body : list Byte.byte;
  content_type : string;
  cache_control : option string;
  last_modified : option Timestamp
}.

Record Request := {
  environ_context : Context;
  environ_microversion : Version;
  (** [req.accept]: the [Accept] header, if the request has one *)
  accept : option string;
  GET : MultiDict;
  response : Response
}.

(** The calls the handler makes, in the order it makes them. *)
Inductive call : Type :=
| Call_validate_query_params (schema : Schema)
| Call_parse_qs_request_groups
| Call_get_by_requests (requests : RequestGroups) (limit : Limit)
| Call_transform_allocation_candidates (cands : AllocationCandidates)
    (want_version : Version)
| Call_utcnow.

(** A computation: the calls made and how it ended. *)
Definition M (A : Type) : Type := list call * outcome A.

Definition ret {A} (a : A) : M A := ([], Return a).
Definition raise {A} (exc : exn) : M A := ([], Raise exc).
Definition called (c : call) : M unit := ([c], Return tt).

Definition bind {A B} (m : M A) (k : A -> M B) : M B :=
  match m with
  | (log, Return a) => let '(log', r) := k a in (log ++ log', r)
  | (log, Raise exc) => (log, Raise exc)
  end.

(** [try: m  except ... as exc: handler exc] *)
Definition try_except {A} (m : M A) (handler : exn -> M A) : M A :=
  match m with
  | (log, Raise exc) => let '(log', r) := handler exc in (log ++ log', r)
  | done => done
  end.

Definition lift {A} (r : exn + A) : M A :=
  match r with inl exc => raise exc | inr a => ret a end.

#[local] Instance M_ret : MRet M := @ret.
#[local] Instance M_bind : MBind M := fun A B k m => bind m k.

(** Modelled from the spec: [util.validate_query_params] is not under
    src/.  The raw query parameters are checked against the schema; a
    violation is reported as a client error (HTTP 400) that carries the
    description of the first violated constraint. *)
Definition validate_query_params (req : Request) (schema : Schema) : M unit :=
  called (Call_validate_query_params schema) ;;
  match schema_violation schema (GET req) with
  | Some description => raise (HTTPBadRequest description)
  | None => ret tt
  end.

(** The [limit] the handler hands to the matching engine:
<<
    limit = req.GET.getall('limit')
    if limit:
        limit = int(limit[0])
>>
    An exception of [int] leaves the handler. *)
Definition limit_argument (query : MultiDict) : exn + Limit :=
  match getall "limit" query with
  | [] => inr LimitEmptyList
  | first :: _ =>
      match int first with
      | inl exc => inl exc
      | inr n => inr (LimitInt n)
      end
  end.

(** The schema chosen at the head of [list_allocation_candidates]. *)
Definition get_schema (want_version : Version) : Schema :=
  if matches want_version (1, 21) then GET_SCHEMA_1_21
  else if matches want_version (1, 17) then GET_SCHEMA_1_17
  else if matches want_version (1, 16) then GET_SCHEMA_1_16
  else GET_SCHEMA_1_10.

(** [@microversion.version_handler(min_ver)]: the function is reached only
    with a version the handler serves. *)
Definition version_handler (min_ver : string) (f : Request -> M Response)
    (req : Request) : M Response :=
  match version_refused min_ver (environ_microversion req) with
  | Some exc => raise exc
  | None => f req
  end.

(** [@util.check_accept(types)]: the function is reached only with an
    [Accept] header that takes one of the types, or with none. *)
Definition check_accept (types : list string) (f : Request -> M Response)
    (req : Request) : M Response :=
  match accept_refused types (accept req) with
  | Some exc => raise exc
  | None => f req
  end.

(** Modelled from the spec: [wsgi_wrapper.PlacementWsgify] is not under
    src/.  The spec leaves the HTTP transport outside this layer, which
    surfaces its failures as exceptions and its answer as one response:
    the adapter calls the function and passes on what it returns or
    raises. *)
Definition PlacementWsgify (f : Request -> M Response) (req : Request)
  : M Response :=
  f req.

(** [list_allocation_candidates], under its three decorators.  The
    translation function [_] is taken as the identity, so
    [_(fmt) % {'error': exc}] is the English text followed by the text of
    the exception. *)
Definition list_allocation_candidates : Request -> M Response :=
  PlacementWsgify (version_handler "1.10" (check_accept ["application/json"]
  (fun req =>
  let context := environ_context req in
  let want_version := environ_microversion req in
  let get_schema := get_schema want_version in
  validate_query_params req get_schema ;;
  requests ← (called Call_parse_qs_request_groups ;;
              lift (parse_qs_request_groups (GET req))) ;
  limit ← lift (limit_argument (GET req)) ;
  cands ← try_except
             (called (Call_get_by_requests requests limit) ;;
              lift (get_by_requests context requests limit))
             (fun exc =>
                match exc with
                | ResourceClassNotFound _ =>
                    raise (HTTPBadRequest
                             ("Invalid resource class in resources parameter: "
                              +:+ text_type exc))
                | TraitNotFound _ => raise (HTTPBadRequest (text_type exc))
                | _ => raise exc
                end) ;
  let response := response req in
  trx_cands ← (called (Call_transform_allocation_candidates cands want_version) ;;
               ret (_transform_allocation_candidates cands want_version)) ;
  let json_data := dumps trx_cands in
  let response :=
    {| body := to_utf8 json_data;
       content_type := "application/json";
       cache_control := cache_control response;
       last_modified := last_modified response |} in
  if matches want_version (1, 15)
  then now ← (called Call_utcnow ;; ret utcnow) ;
       ret {| body := body response;
              content_type := content_type response;
              cache_control := Some "no-cache";
              last_modified := Some now |}
  else ret response))).

(** The request passes the two decorators that can refuse it. *)
Definition passes_decorators (req : Request) : Prop :=
  version_refused "1.10" (environ_microversion req) = None
  /\ accept_refused ["application/json"] (accept req) = None.

Definition is_validate_query_params (c : call) : bool :=
  match c with Call_validate_query_params _ => true | _ => false end.

Definition is_get_by_requests (c : call) : bool :=
  match c with Call_get_by_requests _ _ => true | _ => false end.

Definition is_transform (c : call) : bool :=
  match c with Call_transform_allocation_candidates _ _ => true | _ => false end.

End Handler.

(** ** Reading the two wire formats

    What a client learns from one element of [allocation_requests]: the
    facts "provider [p] supplies amount [a] of class [c]", in the order
    the element lists them. *)

Definition fact : Type := string * string * Z.

Definition rr_key (rr : ResourceRequest) : string * string :=
  (uuid (rr_resource_provider rr), rr_resource_class rr).

Definition rr_fact (rr : ResourceRequest) : fact :=
  (uuid (rr_resource_provider rr), rr_resource_class rr, amount rr).

(** The facts of one [{class: amount, ...}] object of provider [rp_uuid]. *)
Definition resources_facts (rp_uuid : string) (resources : pyval) : list fact :=
  match resources with
  | PDict d =>
      omap (fun '(rc, a) =>
              match a with PInt n => Some (rp_uuid, rc, n) | _ => None end) d
  | _ => []
  end.

(** [{"allocations": {rp_uuid: {"resources": {...}}, ...}}] *)
Definition facts_of_dict_format (alloc : pyval) : list fact :=
  match getitem "allocations" alloc with
  | Some (PDict allocations) =>
      '(rp_uuid, entry) ← allocations;
      match getitem "resources" entry with
      | Some resources => resources_facts rp_uuid resources
      | None => []
      end
  | _ => []
  end.

(** [{"allocations": [{"resource_provider": {"uuid": rp_uuid},
                       "resources": {...}}, ...]}] *)
Definition facts_of_list_format (alloc : pyval) : list fact :=
  match getitem "allocations" alloc with
  | Some (PList allocations) =>
      entry ← allocations;
      match getitem "resource_provider" entry ≫= getitem "uuid",
            getitem "resources" entry with
      | Some (PStr rp_uuid), Some resources => resources_facts rp_uuid resources
      | _, _ => []
      end
  | _ => []
  end.

(** The amount of the last request of the candidate that names provider
    [p] and class [c]. *)
Definition last_amount (p c : string) (rrs : list ResourceRequest) : option Z :=
  amount <$> last (filter (fun rr => rr_key rr = (p, c)) rrs).

(** The last summary of the list that describes provider [u]. *)
Definition last_summary (u : string) (p_sums : list ProviderSummary)
  : option ProviderSummary :=
  last (filter (fun ps => uuid (ps_resource_provider ps) = u) p_sums).

(** [s] occurs inside [t]. *)
Definition contains (s t : string) : Prop :=
  exists before after, t = before +:+ s +:+ after.

(** The element the grouped-by-provider transformer appends for [ar]. *)
Definition dict_candidate (ar : AllocationRequest) : pyval :=
  PDict [("allocations",
          py_rp_resources (foldl dict_loop_body empty (resource_requests ar)))].

(** The element the flat-list transformer appends for [ar]. *)
Definition list_candidate (ar : AllocationRequest) : pyval :=
  PDict [("allocations",
          PList ((fun '(rp_uuid, resources) =>
                    PDict [("resource_provider", PDict [("uuid", PStr rp_uuid)]);
                           ("resources", py_resources resources)])
                   <$> foldl list_loop_body empty (resource_requests ar)))].

(** The provider-to-resources grouping of the flat-list loop, read as the
    list of its facts. *)
Definition grouped_facts (g : pydict (pydict Z)) : list fact :=
  '(p, resources) ← g; (fun '(c, a) => (p, c, a)) <$> resources.

(** [g[p][c]] *)
Definition lookup2 (p c : string) (g : pydict (pydict Z)) : option Z :=
  dict_get p g ≫= dict_get c.

(** Every dictionary of the grouping holds each key once. *)
Definition grouped_wf (g : pydict (pydict Z)) : Prop :=
  NoDup (keys g) ∧ ∀ p resources, dict_get p g = Some resources → NoDup (keys resources).

(** [dict(resources=r)] *)
Definition wrap (resources : pydict Z) : pydict (pydict Z) :=
  [("resources", resources)].

(** The entry [_transform_provider_summaries] leaves for the summary [ps]. *)
Definition summary_entry (include_traits : bool) (ps : ProviderSummary) : pyval :=
  PDict (("resources", PDict (summary_resources ps))
         :: if include_traits
            then [("traits", PList ((fun t => PStr (name t)) <$> traits ps))]
            else []).

Definition summary_uuid (ps : ProviderSummary) : string :=
  uuid (ps_resource_provider ps).

(** A candidate whose two requests name the same provider and class. *)
Definition duplicate_pair : AllocationRequest :=
  {| resource_requests :=
       [{| rr_resource_provider := {| uuid := "A" |};
           rr_resource_class := "VCPU"; amount := 1 |};
        {| rr_resource_provider := {| uuid := "A" |};
           rr_resource_class := "VCPU"; amount := 2 |}] |}.

(** The candidate of the spec's example scenario. *)
Definition two_providers : AllocationRequest :=
  {| resource_requests :=
       [{| rr_resource_provider := {| uuid := "A" |};
           rr_resource_class := "VCPU"; amount := 2 |};
        {| rr_resource_provider := {| uuid := "B" |};
           rr_resource_class := "MEMORY_MB"; amount := 512 |}] |}.

(** A candidate that takes two classes from one provider. *)
Definition shared_provider : AllocationRequest :=
  {| resource_requests :=
       [{| rr_resource_provider := {| uuid := "A" |};
           rr_resource_class := "VCPU"; amount := 4 |};
        {| rr_resource_provider := {| uuid := "B" |};
           rr_resource_class := "DISK_GB"; amount := 100 |};
        {| rr_resource_provider := {| uuid := "A" |};
           rr_resource_class := "MEMORY_MB"; amount := 2048 |}] |}.

(** ** Reading the order of the output

    Which providers one element of [allocation_requests] names, and which
    resource classes it lists for a provider, in the order of the element. *)

Definition as_list (v : pyval) : option (list pyval) :=
  match v with PList l => Some l | _ => None end.

Definition as_str (v : pyval) : option string :=
  match v with PStr s => Some s | _ => None end.

(** [entry["resource_provider"]["uuid"]] of an entry of the flat format. *)
Definition entry_uuid (entry : pyval) : option string :=
  rp ← getitem "resource_provider" entry; getitem "uuid" rp ≫= as_str.

Definition providers_of_list_format (alloc : pyval) : option (list string) :=
  entries ← getitem "allocations" alloc ≫= as_list; mapM entry_uuid entries.

Definition providers_of_dict_format (alloc : pyval) : option (list string) :=
  keys <$> (getitem "allocations" alloc ≫= as_dict).

(** The keys of a [{class: amount, ...}] object. *)
Definition resource_classes (resources : pyval) : option (list string) :=
  keys <$> as_dict resources.

Definition classes_in_list_format (alloc : pyval) (p : string)
  : option (list string) :=
  entries ← getitem "allocations" alloc ≫= as_list;
  entry ← head (filter (fun entry => entry_uuid entry = Some p) entries);
  getitem "resources" entry ≫= resource_classes.

Definition classes_in_dict_format (alloc : pyval) (p : string)
  : option (list string) :=
  allocations ← getitem "allocations" alloc;
  entry ← getitem p allocations;
  getitem "resources" entry ≫= resource_classes.

(** The distinct members of [l], each at the place of its first occurrence. *)
Definition first_occurrences (l : list string) : list string :=
  foldl (fun seen x => if decide (x ∈ seen) then seen else seen ++ [x]) [] l.

(** The providers the requests name, request by request. *)
Definition providers_of (rrs : list ResourceRequest) : list string :=
  (fun rr => uuid (rr_resource_provider rr)) <$> rrs.

(** The classes requested from provider [p], request by request. *)
Definition classes_of (p : string) (rrs : list ResourceRequest) : list string :=
  rr_resource_class
    <$> filter (fun rr => uuid (rr_resource_provider rr) = p) rrs.

(** The last inventory line of the summary for resource class [rc]. *)
Definition last_inventory (rc : string) (ps : ProviderSummary)
  : option ProviderSummaryResource :=
  last (filter (fun psr => psr_resource_class psr = rc) (ps_resources ps)).

(** ** The WSGI script, [placement/wsgi.py] *)

Module Wsgi.

Definition CONFIG_FILE : string := "nova.conf".

Section Platform.
(** The whitespace that [str.strip()] removes, character by character. *)
Context (isspace : Ascii.ascii -> bool).
(** [os.environ] *)
Context (os_environ : gmap string string).

Fixpoint lstrip (s : string) : string :=
  match s with
  | EmptyString => EmptyString
  | String c s' => if isspace c then lstrip s' else s
  end.

Fixpoint rstrip (s : string) : string :=
  match s with
  | EmptyString => EmptyString
  | String c s' =>
      match rstrip s' with
      | EmptyString => if isspace c then EmptyString else String c EmptyString
      | rest => String c rest
      end
  end.

(** [s.strip()] *)
Definition strip (s : string) : string := rstrip (lstrip s).

(** [s.startswith('/')] *)
Definition startswith_sep (s : string) : bool :=
  match s with
  | String c _ => bool_decide (c = "/"%char)
  | EmptyString => false
  end.

(** [s.endswith('/')] *)
Fixpoint endswith_sep (s : string) : bool :=
  match s with
  | EmptyString => false
  | String c EmptyString => bool_decide (c = "/"%char)
  | String _ s' => endswith_sep s'
  end.

(** [os.path.join(a, b)] of [posixpath]: an absolute [b] replaces [a]; a
    separator is put between the two unless [a] is empty or ends with one. *)
Definition join (a b : string) : string :=
  if startswith_sep b then b
  else if bool_decide (a = "") || endswith_sep a then a +:+ b
  else a +:+ "/" +:+ b.

(** [_get_config_file(env=None)] *)
Definition _get_config_file (env : option (gmap string string)) : string :=
  let env := default os_environ env in
  let dirname :=
    strip (default "/etc/nova" (env !! "OS_PLACEMENT_CONFIG_DIR")) in
  join dirname CONFIG_FILE.

(** Every character of [s] is whitespace. *)
Fixpoint blank (s : string) : bool :=
  match s with
  | EmptyString => true
  | String c s' => isspace c && blank s'
  end.

End Platform.

(** The whitespace of a Python 2 [str]: space, tab, newline, return,
    vertical tab and form feed. *)
Definition ascii_whitespace (c : Ascii.ascii) : bool :=
  bool_decide (Ascii.nat_of_ascii c ∈ [32; 9; 10; 13; 11; 12]%nat).

End Wsgi.

(** ** A concrete deployment, for the examples

    The query is its own parsed form, the schemas allow the parameters
    their version introduced, and the matching engine answers by the
    resources asked for. *)

Module Scenario.

Definition summary_A : ProviderSummary :=
  {| ps_resource_provider := {| uuid := "A" |};
     ps_resources :=
       [{| psr_resource_class := "VCPU"; capacity := 8; used := 2 |};
        {| psr_resource_class := "MEMORY_MB"; capacity := 4096; used := 0 |}];
     traits := [{| name := "HW_CPU_X86_AVX512F" |}] |}.

Definition summary_B : ProviderSummary :=
  {| ps_resource_provider := {| uuid := "B" |};
     ps_resources :=
       [{| psr_resource_class := "DISK_GB"; capacity := 1000; used := 100 |};
        {| psr_resource_class := "MEMORY_MB"; capacity := 1024; used := 512 |}];
     traits := [] |}.

Definition five_candidates : AllocationCandidates :=
  {| allocation_requests :=
       [two_providers; shared_provider; two_providers; shared_provider;
        two_providers];
     provider_summaries := [summary_A; summary_B] |}.

Definition duplicate_candidates : AllocationCandidates :=
  {| allocation_requests := [duplicate_pair];
     provider_summaries := [summary_A] |}.

Definition allowed_parameters (schema : Schema) : list string :=
  match schema with
  | GET_SCHEMA_1_10 => ["resources"]
  | GET_SCHEMA_1_16 => ["resources"; "limit"]
  | GET_SCHEMA_1_17 => ["resources"; "limit"; "required"]
  | GET_SCHEMA_1_21 => ["resources"; "limit"; "required"; "member_of"]
  end.

Definition violation (schema : Schema) (query : MultiDict) : option string :=
  match filter (fun kv => kv.1 ∉ allowed_parameters schema) query with
  | [] => None
  | (k, _) :: _ => Some ("Additional properties are not allowed: " +:+ k)
  end.

Definition engine (context : unit) (requests : MultiDict) (limit : Limit)
  : exn + AllocationCandidates :=
  if decide (getall "resources" requests = ["BOGUS:1"])
  then inl (ResourceClassNotFound "BOGUS")
  else if decide (getall "required" requests = ["HW_BOGUS"])
  then inl (TraitNotFound "HW_BOGUS")
  else if decide (getall "resources" requests = ["VCPU:999999"])
  then inl (OtherException "DBConnectionError" "connection lost")
  else if decide (getall "resources" requests = ["VCPU:1,VCPU:2"])
  then inr duplicate_candidates
  else inr five_candidates.

(** The handler serves the versions from [min_ver] on; only 1.10 is ever
    asked for. *)
Definition served_from (min_ver : string) (want_version : Version)
  : option exn :=
  if matches want_version (if decide (min_ver = "1.10") then (1, 10) else (1, 0))
  then None
  else Some (OtherException "HTTPNotFound" "The resource could not be found.").

(** A header is taken when it names one of the types or any type. *)
Definition not_acceptable (types : list string) (header : option string)
  : option exn :=
  match header with
  | None => None
  | Some value =>
      if decide (value ∈ "*/*" :: types)
      then None
      else Some (OtherException "HTTPNotAcceptable"
                   "Only application/json is provided")
  end.

Definition decimal (s : string) : exn + Z :=
  match NilZero.int_of_string s with
  | Some n => inr (Z.of_int n)
  | None => inl (OtherException "ValueError" s)
  end.

Definition text (exc : exn) : string :=
  match exc with
  | ResourceClassNotFound rc => "No such resource class " +:+ rc +:+ "."
  | TraitNotFound names => "No such trait(s): " +:+ names +:+ "."
  | HTTPBadRequest explanation => explanation
  | OtherException _ args => args
  end.

Definition quoted (s : string) : string :=
  let quote := String.String (Ascii.ascii_of_nat 34) "" in
  quote +:+ s +:+ quote.

Fixpoint json (v : pyval) : string :=
  match v with
  | PInt z => pretty z
  | PStr s => quoted s
  | PList l => "[" +:+ String.concat ", " (map json l) +:+ "]"
  | PDict d =>
      "{" +:+ String.concat ", "
                (map (fun kv => quoted (fst kv) +:+ ": " +:+ json (snd kv)) d)
      +:+ "}"
  end.

#[export] Instance deployment : Collaborators := {|
  Context := unit;
  RequestGroups := MultiDict;
  Timestamp := Z;
  version_refused := served_from;
  accept_refused := not_acceptable;
  schema_violation := violation;
  parse_qs_request_groups := inr;
  get_by_requests := engine;
  int := decimal;
  text_type := text;
  dumps := json;
  to_utf8 := String.list_byte_of_string;
  utcnow := 1525132800
|}.

Definition blank_response : Response :=
  {| body := []; content_type := "text/html";
     cache_control := None; last_modified := None |}.

Definition request (want_version : Version) (query : MultiDict) : Request :=
  {| environ_context := tt;
     environ_microversion := want_version;
     accept := None;
     GET := query;
     response := blank_response |}.

(** [?resources=VCPU:1&colour=red] at 1.10: no schema knows [colour]. *)
Definition malformed_request : Request :=
  request (1, 10) [("resources", "VCPU:1"); ("colour", "red")].

(** [?resources=BOGUS:1] at 1.17: the engine knows no class [BOGUS]. *)
Definition bogus_class_request : Request :=
  request (1, 17) [("resources", "BOGUS:1")].

(** [?resources=VCPU:1&required=HW_BOGUS] at 1.17: no such trait. *)
Definition bogus_trait_request : Request :=
  request (1, 17) [("resources", "VCPU:1"); ("required", "HW_BOGUS")].

(** [?resources=VCPU:999999] at 1.17: the engine loses its database. *)
Definition crashing_request : Request :=
  request (1, 17) [("resources", "VCPU:999999")].

(** [?resources=VCPU:1&limit=2] at 1.16: the engine answers with five
    candidates all the same. *)
Definition limited_request : Request :=
  request (1, 16) [("resources", "VCPU:1"); ("limit", "2")].

(** [?resources=VCPU:1,VCPU:2] at 1.12: the engine answers with a
    candidate that names a pair twice. *)
Definition duplicate_request : Request :=
  request (1, 12) [("resources", "VCPU:1,VCPU:2")].

End Scenario.

(** The call that reads the clock. *)
Definition is_utcnow `{Collaborators} (c : call) : bool :=
  match c with Call_utcnow => true | _ => false end.

(** ** A deployment whose query parser refuses a query without resources *)

Module StrictScenario.

Definition parse (query : MultiDict) : exn + MultiDict :=
  if decide (getall "resources" query = [])
  then inl (HTTPBadRequest "resources parameter is required")
  else inr query.

Definition deployment : Collaborators := {|
  Context := unit;
  RequestGroups := MultiDict;
  Timestamp := Z;
  version_refused := Scenario.served_from;
  accept_refused := Scenario.not_acceptable;
  schema_violation := Scenario.violation;
  parse_qs_request_groups := parse;
  get_by_requests := Scenario.engine;
  int := Scenario.decimal;
  text_type := Scenario.text;
  dumps := Scenario.json;
  to_utf8 := String.list_byte_of_string;
  utcnow := 1525132800
|}.

(** [?limit=5] at 1.16: well-formed for the schema, but nothing is asked for. *)
Definition no_resources_request : @Request deployment :=
  {| environ_context := tt : @Context deployment;
     environ_microversion := (1, 16);
     accept := Some "application/json";
     GET := [("limit", "5")];
     response :=
       {| body := []; content_type := "text/html";
          cache_control := None; last_modified := None |} |}.

End StrictScenario.



(** [?resources=VCPU:1] at 1.12: no limit, and no cache headers yet. *)
Definition unlimited_request : Request :=
  Scenario.request (1, 12) [("resources", "VCPU:1")].

(** * Properties *)

(** ** Python dictionaries *)

Module PyDictFacts.
Section facts.
Context {V : Type}.
Implicit Types (d : pydict V) (k : string) (v : V).

Lemma dict_get_set_eq k v d : dict_get k (dict_set k v d) = Some v.
Proof.
  induction d as [|[k' v'] d IH]; simpl.
  - by rewrite decide_True.
  - destruct (decide (k = k')) as [->|Hne]; simpl.
    + by rewrite decide_True.
    + by rewrite decide_False.
Qed.

Lemma dict_get_set_ne k k' v d :
  k ≠ k' → dict_get k' (dict_set k v d) = dict_get k' d.
Proof.
  intros Hne. induction d as [|[k0 v0] d IH]; simpl.
  - by rewrite decide_False.
  - destruct (decide (k = k0)) as [->|Hne0]; simpl.
    + by rewrite !decide_False.
    + by rewrite IH.
Qed.

Lemma dict_get_set k k' v d :
  dict_get k' (dict_set k v d) = if decide (k = k') then Some v else dict_get k' d.
Proof.
  case_decide as Hk; [subst; apply dict_get_set_eq | by apply dict_get_set_ne].
Qed.

Lemma dict_get_None k d : dict_get k d = None ↔ k ∉ keys d.
Proof.
  unfold keys. induction d as [|[k' v'] d IH]; csimpl.
  - split; [intros _; apply not_elem_of_nil | done].
  - rewrite not_elem_of_cons. case_decide as Hk.
    + split; [done | intros [? _]; done].
    + rewrite IH. tauto.
Qed.

Lemma dict_get_elem_of k v d : dict_get k d = Some v → (k, v) ∈ d.
Proof.
  induction d as [|[k' v'] d IH]; simpl; [done|].
  case_decide; [intros [= ->]; subst; left | intros; right; auto].
Qed.

Lemma elem_of_dict_get k v d : NoDup (keys d) → (k, v) ∈ d → dict_get k d = Some v.
Proof.
  unfold keys. induction d as [|[k' v'] d IH]; csimpl.
  - intros _ Hin. by apply elem_of_nil in Hin.
  - rewrite NoDup_cons. intros [Hk' Hd] [[= -> ->]|Hin]%elem_of_cons.
    + by rewrite decide_True.
    + rewrite decide_False; [auto|].
      intros ->. apply Hk'. apply list_elem_of_fmap. by exists (k', v).
Qed.

Lemma keys_set_present k v d : k ∈ keys d → keys (dict_set k v d) = keys d.
Proof.
  unfold keys. induction d as [|[k' v'] d IH]; csimpl.
  - intros Hin. by apply elem_of_nil in Hin.
  - case_decide; csimpl; [done|].
    intros [->|Hin]%elem_of_cons; [done|]. by rewrite IH.
Qed.

Lemma keys_set_fresh k v d : k ∉ keys d → keys (dict_set k v d) = keys d ++ [k].
Proof.
  unfold keys. induction d as [|[k' v'] d IH]; csimpl; [done|].
  rewrite not_elem_of_cons. intros [Hne Hnin].
  rewrite decide_False by done. csimpl. by rewrite IH.
Qed.

Lemma elem_of_keys_set k k' v d : k' ∈ keys (dict_set k v d) ↔ k' = k ∨ k' ∈ keys d.
Proof.
  destruct (decide (k ∈ keys d)) as [Hin|Hnin].
  - rewrite keys_set_present by done.
    split; [auto | intros [->|?]; done].
  - rewrite keys_set_fresh, elem_of_app, list_elem_of_singleton by done. tauto.
Qed.

Lemma keys_set_NoDup k v d : NoDup (keys d) → NoDup (keys (dict_set k v d)).
Proof.
  intros Hd. destruct (decide (k ∈ keys d)) as [Hin|Hnin].
  - by rewrite keys_set_present.
  - rewrite keys_set_fresh by done. apply NoDup_app. split; [done|].
    split; [|apply NoDup_singleton].
    intros x Hx ->%list_elem_of_singleton. done.
Qed.

(** Assigning twice to the same key leaves the second value only. *)
Lemma dict_set_set k v v' d : dict_set k v' (dict_set k v d) = dict_set k v' d.
Proof.
  induction d as [|[k0 v0] d IH]; simpl.
  - by rewrite decide_True.
  - destruct (decide (k = k0)) as [->|Hne]; simpl.
    + by rewrite decide_True.
    + by rewrite decide_False, IH.
Qed.

End facts.

Lemma dict_get_map_values {V W} (f : V → W) k (d : pydict V) :
  dict_get k (map_values f d) = f <$> dict_get k d.
Proof.
  unfold map_values. induction d as [|[k' v'] d IH]; csimpl; [done|].
  by case_decide.
Qed.

Lemma dict_set_map_values {V W} (f : V → W) k v (d : pydict V) :
  dict_set k (f v) (map_values f d) = map_values f (dict_set k v d).
Proof.
  unfold map_values. induction d as [|[k' v'] d IH]; csimpl; [done|].
  case_decide; csimpl; [done|]. by rewrite IH.
Qed.

End PyDictFacts.
Import PyDictFacts.

(** ** The transformers, candidate by candidate *)

Lemma foldl_snoc_fmap {A B} (f : A → B) (l : list A) (acc : list B) :
  foldl (fun results x => results ++ [f x]) acc l = acc ++ (f <$> l).
Proof.
  revert acc. induction l as [|x l IH]; intros acc; csimpl.
  - by rewrite app_nil_r.
  - by rewrite IH, <- app_assoc.
Qed.

Lemma transform_dict_fmap alloc_reqs :
  _transform_allocation_requests_dict alloc_reqs = dict_candidate <$> alloc_reqs.
Proof. unfold _transform_allocation_requests_dict. by rewrite foldl_snoc_fmap. Qed.

Lemma transform_list_fmap alloc_reqs :
  _transform_allocation_requests_list alloc_reqs = list_candidate <$> alloc_reqs.
Proof. unfold _transform_allocation_requests_list. by rewrite foldl_snoc_fmap. Qed.

(** C9: both transformers keep the candidates one for one.  The output is
    as long as the input, its [i]-th element is what the transformer makes
    of the [i]-th candidate alone, and no candidate gives no element. *)
Theorem transforms_preserve_candidates (alloc_reqs : list AllocationRequest) :
  (length (_transform_allocation_requests_dict alloc_reqs) = length alloc_reqs
   ∧ length (_transform_allocation_requests_list alloc_reqs) = length alloc_reqs)
  ∧ (∀ i : nat,
       _transform_allocation_requests_dict alloc_reqs !! i
       = (ar ← alloc_reqs !! i; head (_transform_allocation_requests_dict [ar])))
  ∧ (∀ i : nat,
       _transform_allocation_requests_list alloc_reqs !! i
       = (ar ← alloc_reqs !! i; head (_transform_allocation_requests_list [ar])))
  ∧ _transform_allocation_requests_dict [] = []
  ∧ _transform_allocation_requests_list [] = [].
Proof.
  rewrite transform_dict_fmap, transform_list_fmap.
  repeat split.
  - apply length_fmap.
  - apply length_fmap.
  - intros i. rewrite list_lookup_fmap. by destruct (alloc_reqs !! i).
  - intros i. rewrite list_lookup_fmap. by destruct (alloc_reqs !! i).
Qed.

(** ** Grouping the requests of one candidate *)

(** The two inner loops do the same work: the grouped-by-provider loop
    keeps every resources dictionary of the flat-list loop inside a
    [{"resources": ...}] wrapper. *)
Lemma dict_loop_body_wrap g rr :
  dict_loop_body (map_values wrap g) rr = map_values wrap (list_loop_body g rr).
Proof.
  unfold dict_loop_body, list_loop_body, defaultdict_getitem.
  rewrite dict_get_map_values.
  destruct (dict_get (uuid (rr_resource_provider rr)) g) as [r|]; csimpl.
  - apply (dict_set_map_values wrap).
  - change [("resources", @empty Z)] with (wrap empty).
    rewrite (dict_set_map_values wrap _ empty).
    apply (dict_set_map_values wrap).
Qed.

Lemma dict_loop_wrap rrs g :
  foldl dict_loop_body (map_values wrap g) rrs
  = map_values wrap (foldl list_loop_body g rrs).
Proof.
  revert g. induction rrs as [|rr rrs IH]; intros g; simpl; [done|].
  by rewrite dict_loop_body_wrap, IH.
Qed.

Lemma resources_facts_py p r :
  resources_facts p (py_resources r) = (fun '(c, a) => (p, c, a)) <$> r.
Proof.
  unfold py_resources, map_values; simpl.
  induction r as [|[c a] r IH]; csimpl; [done|]. by rewrite IH.
Qed.

Lemma facts_of_dict_candidate ar :
  facts_of_dict_format (dict_candidate ar)
  = grouped_facts (foldl list_loop_body empty (resource_requests ar)).
Proof.
  unfold dict_candidate, facts_of_dict_format, getitem; simpl.
  change (@empty (pydict (pydict Z))) with (map_values wrap (@empty (pydict Z))).
  rewrite dict_loop_wrap.
  generalize (foldl list_loop_body empty (resource_requests ar)).
  intros g. unfold grouped_facts, map_values.
  induction g as [|[p r] g IH]; csimpl; [done|].
  f_equal; [exact (resources_facts_py p r) | exact IH].
Qed.

Lemma facts_of_list_candidate ar :
  facts_of_list_format (list_candidate ar)
  = grouped_facts (foldl list_loop_body empty (resource_requests ar)).
Proof.
  unfold list_candidate, facts_of_list_format, getitem; simpl.
  generalize (foldl list_loop_body empty (resource_requests ar)).
  intros g. unfold grouped_facts.
  induction g as [|[p r] g IH]; csimpl; [done|].
  f_equal; [exact (resources_facts_py p r) | exact IH].
Qed.

Lemma elem_of_grouped_facts g p c a :
  grouped_wf g → (p, c, a) ∈ grouped_facts g ↔ lookup2 p c g = Some a.
Proof.
  intros [Hg Hr]. unfold grouped_facts, lookup2.
  rewrite list_elem_of_bind. split.
  - intros [[p' r] [Hin Hpr]].
    apply list_elem_of_fmap in Hin as [[c' a'] [[= -> -> ->] Hca]].
    pose proof (elem_of_dict_get (V:=pydict Z) p' r g Hg Hpr) as Hp.
    rewrite Hp; simpl. apply elem_of_dict_get; eauto.
  - destruct (dict_get p g) as [r|] eqn:Hp; simpl; [|done].
    intros Hc. exists (p, r). split.
    + apply list_elem_of_fmap. exists (c, a). split; [done|].
      by apply dict_get_elem_of.
    + by apply dict_get_elem_of.
Qed.

Lemma list_loop_body_wf g rr : grouped_wf g → grouped_wf (list_loop_body g rr).
Proof.
  intros [Hg Hr]. unfold list_loop_body, defaultdict_getitem.
  destruct (dict_get (uuid (rr_resource_provider rr)) g) as [r|] eqn:Hp.
  - split; [by apply keys_set_NoDup|].
    intros p r'. rewrite dict_get_set. case_decide; [|by apply Hr].
    intros [= <-]. apply keys_set_NoDup. eauto.
  - split; [by do 2 apply keys_set_NoDup|].
    intros p r'. rewrite !dict_get_set. case_decide; [|by apply Hr].
    intros [= <-]. apply (NoDup_singleton (rr_resource_class rr)).
Qed.

Lemma list_loop_wf rrs : grouped_wf (foldl list_loop_body empty rrs).
Proof.
  assert (∀ g, grouped_wf g → grouped_wf (foldl list_loop_body g rrs)) as Hgen.
  { induction rrs as [|rr rrs IH]; intros g Hg; simpl; [done|].
    by apply IH, list_loop_body_wf. }
  apply Hgen. split; [apply NoDup_nil_2 | done].
Qed.

Lemma lookup2_loop_body g rr p c :
  lookup2 p c (list_loop_body g rr)
  = if decide (rr_key rr = (p, c)) then Some (amount rr) else lookup2 p c g.
Proof.
  unfold lookup2, list_loop_body, defaultdict_getitem, rr_key.
  destruct (dict_get (uuid (rr_resource_provider rr)) g) as [r|] eqn:Hp;
    rewrite ?dict_get_set;
    destruct (decide (uuid (rr_resource_provider rr) = p)) as [<-|Hne]; simpl.
  - rewrite dict_get_set, Hp; simpl.
    destruct (decide (rr_resource_class rr = c)) as [<-|Hne].
    + by rewrite decide_True.
    + rewrite decide_False; [done | congruence].
  - rewrite decide_False; [done | congruence].
  - rewrite Hp; simpl.
    destruct (decide (c = rr_resource_class rr)) as [->|Hne].
    + by rewrite decide_True.
    + rewrite decide_False; [done | congruence].
  - rewrite decide_False; [done | congruence].
Qed.

(** After the loop, [g[p][c]] is the amount of the last request for [(p, c)]. *)
Lemma lookup2_loop rrs p c :
  lookup2 p c (foldl list_loop_body empty rrs) = last_amount p c rrs.
Proof.
  unfold last_amount. induction rrs as [|rr rrs IH] using rev_ind; [done|].
  rewrite foldl_app; simpl. rewrite lookup2_loop_body, filter_app, filter_cons, filter_nil.
  case_decide.
  - by rewrite last_snoc.
  - by rewrite app_nil_r.
Qed.

Lemma NoDup_fmap_eq {A B} (f : A → B) (l : list A) x y :
  NoDup (f <$> l) → x ∈ l → y ∈ l → f x = f y → x = y.
Proof.
  induction l as [|z l IH]; csimpl.
  - intros _ Hx. by apply elem_of_nil in Hx.
  - rewrite NoDup_cons. intros [Hz Hl] Hx Hy Hf.
    apply elem_of_cons in Hx as [->|Hx]; apply elem_of_cons in Hy as [->|Hy].
    + done.
    + destruct Hz. rewrite Hf. by apply list_elem_of_fmap_2.
    + destruct Hz. rewrite <- Hf. by apply list_elem_of_fmap_2.
    + by apply IH.
Qed.

(** Without duplicate pairs, the last amount for a pair is its only one. *)
Lemma last_amount_NoDup rrs p c a :
  NoDup (rr_key <$> rrs) →
  last_amount p c rrs = Some a ↔ (p, c, a) ∈ rr_fact <$> rrs.
Proof.
  intros Hnd. unfold last_amount. rewrite list_elem_of_fmap. split.
  - destruct (last _) as [rr|] eqn:Hlast; [|done].
    intros [= <-]. apply last_Some_elem_of, list_elem_of_filter in Hlast as [Hk Hin].
    exists rr. split; [|done]. unfold rr_fact, rr_key in *. congruence.
  - intros [rr [Hf Hin]].
    assert (rr ∈ filter (fun rr => rr_key rr = (p, c)) rrs) as Hfil.
    { apply list_elem_of_filter. split; [|done]. unfold rr_fact, rr_key in *. congruence. }
    destruct (last _) as [rr'|] eqn:Hlast.
    + apply last_Some_elem_of, list_elem_of_filter in Hlast as [Hk Hin'].
      assert (rr' = rr) as ->.
      { apply (NoDup_fmap_eq rr_key rrs); [done..|].
        rewrite Hk. unfold rr_fact, rr_key in *. congruence. }
      unfold rr_fact in Hf. simpl. congruence.
    + apply last_None in Hlast. rewrite Hlast in Hfil. by apply elem_of_nil in Hfil.
Qed.

Lemma candidate_facts ar p c a :
  ((p, c, a) ∈ facts_of_list_format (list_candidate ar)
   ↔ last_amount p c (resource_requests ar) = Some a)
  ∧ ((p, c, a) ∈ facts_of_dict_format (dict_candidate ar)
     ↔ last_amount p c (resource_requests ar) = Some a).
Proof.
  rewrite facts_of_list_candidate, facts_of_dict_candidate.
  rewrite elem_of_grouped_facts by apply list_loop_wf.
  by rewrite lookup2_loop.
Qed.

(** C2: reshaping is lossless.  When no candidate names a (provider,
    class) pair twice, the [i]-th element of the flat-list output and the
    [i]-th element of the grouped-by-provider output state the same facts,
    and these are the facts of the [i]-th candidate. *)
Theorem reshaping_lossless (alloc_reqs : list AllocationRequest) :
  Forall (fun ar => NoDup (rr_key <$> resource_requests ar)) alloc_reqs →
  ∀ (i : nat) (ar : AllocationRequest),
    alloc_reqs !! i = Some ar →
    ∃ flat grouped,
      _transform_allocation_requests_list alloc_reqs !! i = Some flat
      ∧ _transform_allocation_requests_dict alloc_reqs !! i = Some grouped
      ∧ ∀ p c a,
          ((p, c, a) ∈ facts_of_list_format flat
           ↔ (p, c, a) ∈ facts_of_dict_format grouped)
          ∧ ((p, c, a) ∈ facts_of_dict_format grouped
             ↔ (p, c, a) ∈ rr_fact <$> resource_requests ar).
Proof.
  intros Hnd i ar Hi.
  exists (list_candidate ar), (dict_candidate ar).
  rewrite transform_list_fmap, transform_dict_fmap, !list_lookup_fmap, Hi.
  do 2 (split; [done|]). intros p c a.
  destruct (candidate_facts ar p c a) as [Hl Hd].
  rewrite Hl, Hd. split; [done|].
  apply last_amount_NoDup.
  by apply (proj1 (Forall_lookup _ _) Hnd i ar).
Qed.

(** C2 at work: the second of two duplicate-free candidates. *)
Lemma reshaping_lossless_witness :
  Forall (fun ar => NoDup (rr_key <$> resource_requests ar))
    [two_providers; shared_provider]
  ∧ ∃ flat grouped,
      _transform_allocation_requests_list [two_providers; shared_provider] !! 1%nat
      = Some flat
      ∧ _transform_allocation_requests_dict [two_providers; shared_provider] !! 1%nat
        = Some grouped
      ∧ ∀ p c a,
          ((p, c, a) ∈ facts_of_list_format flat
           ↔ (p, c, a) ∈ facts_of_dict_format grouped)
          ∧ ((p, c, a) ∈ facts_of_dict_format grouped
             ↔ (p, c, a) ∈ rr_fact <$> resource_requests shared_provider).
Proof.
  assert (Forall (fun ar => NoDup (rr_key <$> resource_requests ar))
            [two_providers; shared_provider]) as Hnd.
  { apply (bool_decide_unpack _). vm_compute. exact I. }
  split; [exact Hnd|].
  apply (reshaping_lossless [two_providers; shared_provider] Hnd 1%nat shared_provider).
  reflexivity.
Defined.

(** C3, as the code has it: neither transformer raises on a pair named
    twice.  For every candidate, with or without duplicates, each output
    element states for a (provider, class) pair exactly the amount of the
    last request that names the pair. *)
Theorem duplicates_last_write_wins (ar : AllocationRequest) :
  ∃ flat grouped,
    _transform_allocation_requests_list [ar] = [flat]
    ∧ _transform_allocation_requests_dict [ar] = [grouped]
    ∧ ∀ p c a,
        ((p, c, a) ∈ facts_of_list_format flat
         ↔ last_amount p c (resource_requests ar) = Some a)
        ∧ ((p, c, a) ∈ facts_of_dict_format grouped
           ↔ last_amount p c (resource_requests ar) = Some a).
Proof.
  exists (list_candidate ar), (dict_candidate ar).
  rewrite transform_list_fmap, transform_dict_fmap.
  do 2 (split; [done|]). intros p c a. apply candidate_facts.
Qed.

(** ** Provider summaries *)

(** One turn of the loop of [_transform_provider_summaries] binds the
    provider's uuid to the entry of the summary at hand, whatever was bound
    to that uuid before. *)
Lemma summaries_loop_body (include_traits : bool) (ret : pydict pyval) ps :
  (let resources := summary_resources ps in
   let rp_uuid := uuid (ps_resource_provider ps) in
   let ret := dict_set rp_uuid (PDict [("resources", PDict resources)]) ret in
   if include_traits
   then setitem_at rp_uuid "traits"
          (PList ((fun t => PStr (name t)) <$> traits ps)) ret
   else ret)
  = dict_set (summary_uuid ps) (summary_entry include_traits ps) ret.
Proof.
  unfold summary_entry, summary_uuid, setitem_at.
  destruct include_traits; simpl; [|done].
  by rewrite dict_get_set_eq, dict_set_set.
Qed.

Lemma transform_summaries_snoc p_sums ps include_traits :
  _transform_provider_summaries (p_sums ++ [ps]) include_traits
  = dict_set (summary_uuid ps) (summary_entry include_traits ps)
      (_transform_provider_summaries p_sums include_traits).
Proof.
  unfold _transform_provider_summaries. rewrite foldl_app. simpl.
  apply summaries_loop_body.
Qed.

Lemma summaries_get u p_sums include_traits :
  dict_get u (_transform_provider_summaries p_sums include_traits)
  = summary_entry include_traits <$> last_summary u p_sums.
Proof.
  unfold last_summary. induction p_sums as [|ps p_sums IH] using rev_ind; [done|].
  rewrite transform_summaries_snoc, dict_get_set, filter_app, filter_cons, filter_nil.
  fold (summary_uuid ps). case_decide.
  - by rewrite last_snoc.
  - by rewrite app_nil_r.
Qed.

Lemma summaries_keys p_sums include_traits :
  NoDup (keys (_transform_provider_summaries p_sums include_traits))
  ∧ ∀ u, u ∈ keys (_transform_provider_summaries p_sums include_traits)
         ↔ u ∈ summary_uuid <$> p_sums.
Proof.
  induction p_sums as [|ps p_sums [IHnd IHin]] using rev_ind.
  - split; [apply NoDup_nil_2 | done].
  - rewrite transform_summaries_snoc. split; [by apply keys_set_NoDup|].
    intros u. rewrite elem_of_keys_set, fmap_app, elem_of_app, IHin.
    simpl. rewrite list_elem_of_singleton. tauto.
Qed.

Lemma summaries_entries p_sums include_traits rp_uuid entry :
  (rp_uuid, entry) ∈ _transform_provider_summaries p_sums include_traits →
  ∃ ps, ps ∈ p_sums ∧ summary_uuid ps = rp_uuid
        ∧ entry = summary_entry include_traits ps.
Proof.
  intros Hin. apply elem_of_dict_get in Hin; [|apply summaries_keys].
  rewrite summaries_get in Hin. unfold last_summary in Hin.
  destruct (last _) as [ps|] eqn:Hlast; [|done].
  injection Hin as <-.
  apply last_Some_elem_of, list_elem_of_filter in Hlast as [Hu Hps].
  by exists ps.
Qed.

(** C10: the keys of [provider_summaries] are the provider uuids of the
    summaries given, each once; the entry under a uuid is the one the last
    summary with that uuid gives on its own, resources and traits alike. *)
Theorem provider_summaries_keys (p_sums : list ProviderSummary)
    (include_traits : bool) :
  let ret := _transform_provider_summaries p_sums include_traits in
  (∀ u, u ∈ keys ret ↔ u ∈ (fun ps => uuid (ps_resource_provider ps)) <$> p_sums)
  ∧ NoDup (keys ret)
  ∧ length ret
    = length (remove_dups ((fun ps => uuid (ps_resource_provider ps)) <$> p_sums))
  ∧ ∀ u, dict_get u ret
         = (ps ← last_summary u p_sums;
            dict_get u (_transform_provider_summaries [ps] include_traits)).
Proof.
  intros ret. subst ret.
  destruct (summaries_keys p_sums include_traits) as [Hnd Hin].
  split; [exact Hin|]. split; [exact Hnd|]. split.
  - transitivity (length (keys (_transform_provider_summaries p_sums include_traits))).
    { unfold keys. by rewrite length_fmap. }
    apply Permutation_length, NoDup_Permutation; [done | apply NoDup_remove_dups |].
    intros u. rewrite Hin, elem_of_remove_dups. done.
  - intros u. rewrite summaries_get. unfold last_summary.
    destruct (last _) as [ps|] eqn:Hlast; [|done]. simpl.
    apply last_Some_elem_of, list_elem_of_filter in Hlast as [Hu Hps].
    change (_transform_provider_summaries [ps] include_traits)
      with (_transform_provider_summaries ([] ++ [ps]) include_traits).
    rewrite transform_summaries_snoc. simpl.
    unfold summary_uuid. by rewrite decide_True.
Qed.

(** ** Version thresholds *)

Lemma matches_version_le (want_version threshold : Version) :
  matches want_version threshold = true ↔ version_le threshold want_version.
Proof.
  unfold matches, version_le. destruct want_version as [a b], threshold as [c d]; simpl.
  destruct (Z.eqb_spec c a) as [->|Hne].
  - rewrite Z.leb_le. lia.
  - rewrite Z.ltb_lt. lia.
Qed.

Lemma matches_version_lt (want_version threshold : Version) :
  matches want_version threshold = false ↔ version_lt want_version threshold.
Proof.
  unfold matches, version_lt. destruct want_version as [a b], threshold as [c d]; simpl.
  destruct (Z.eqb_spec c a) as [->|Hne].
  - rewrite Z.leb_gt. lia.
  - rewrite Z.ltb_ge. lia.
Qed.

Lemma matches_decide (want_version threshold : Version) :
  matches want_version threshold = bool_decide (version_le threshold want_version).
Proof.
  case_bool_decide as Hle.
  - by apply matches_version_le.
  - apply not_true_is_false. by rewrite matches_version_le.
Qed.

Lemma version_lt_not_le (a b : Version) : version_lt a b ↔ ¬ version_le b a.
Proof. unfold version_lt, version_le. lia. Qed.

(** The two formats never coincide on a candidate: under ["allocations"]
    one holds a list, the other a dictionary. *)
Lemma formats_differ alloc_reqs flat grouped :
  flat ∈ _transform_allocation_requests_list alloc_reqs →
  grouped ∈ _transform_allocation_requests_dict alloc_reqs →
  flat ≠ grouped.
Proof.
  rewrite transform_list_fmap, transform_dict_fmap, !list_elem_of_fmap.
  intros [ar [-> _]] [ar' [-> _]]. discriminate.
Qed.

(** C1: the format of [allocation_requests] is decided by the version
    alone.  Below 1.12 the field is the flat-list transform of the
    candidates, from 1.12 on the grouped-by-provider transform; a version
    is on one side of the threshold only, and no element of one format is
    an element of the other. *)
Theorem allocation_format_selection (alloc_cands : AllocationCandidates)
    (want_version : Version) :
  let a_reqs :=
    getitem "allocation_requests"
      (_transform_allocation_candidates alloc_cands want_version) in
  (version_lt want_version (1, 12) →
   a_reqs = Some (PList (_transform_allocation_requests_list
                           (allocation_requests alloc_cands))))
  ∧ (version_le (1, 12) want_version →
     a_reqs = Some (PList (_transform_allocation_requests_dict
                             (allocation_requests alloc_cands))))
  ∧ (version_lt want_version (1, 12) ↔ ¬ version_le (1, 12) want_version)
  ∧ (∀ flat grouped,
       flat ∈ _transform_allocation_requests_list (allocation_requests alloc_cands) →
       grouped ∈ _transform_allocation_requests_dict (allocation_requests alloc_cands) →
       flat ≠ grouped).
Proof.
  intros a_reqs. subst a_reqs. unfold _transform_allocation_candidates, getitem. simpl.
  split; [|split; [|split]].
  - intros Hlt%matches_version_lt. by rewrite Hlt.
  - intros Hle%matches_version_le. by rewrite Hle.
  - apply version_lt_not_le.
  - apply formats_differ.
Qed.

(** C4: traits are exposed from 1.17 on and never before.  The flag handed
    to [_transform_provider_summaries] is true exactly for versions at or
    above 1.17; every entry of the resulting mapping carries a ["traits"]
    list when the flag is set and has no ["traits"] key when it is not. *)
Theorem trait_exposure_gated (alloc_cands : AllocationCandidates)
    (want_version : Version) :
  let include_traits := matches want_version (1, 17) in
  (include_traits = true ↔ version_le (1, 17) want_version)
  ∧ getitem "provider_summaries"
      (_transform_allocation_candidates alloc_cands want_version)
    = Some (PDict (_transform_provider_summaries
                     (provider_summaries alloc_cands) include_traits))
  ∧ ∀ rp_uuid entry,
      (rp_uuid, entry) ∈ _transform_provider_summaries
                           (provider_summaries alloc_cands) include_traits →
      if include_traits
      then ∃ ps, ps ∈ provider_summaries alloc_cands
                 ∧ getitem "traits" entry
                   = Some (PList ((fun t => PStr (name t)) <$> traits ps))
      else getitem "traits" entry = None.
Proof.
  intros include_traits. split; [apply matches_version_le|]. split; [done|].
  intros rp_uuid entry (ps & Hps & _ & ->)%summaries_entries.
  destruct include_traits; [by exists ps | done].
Qed.

(** ** The handler *)

Lemma append_assoc (s t u : string) : (s +:+ t) +:+ u = s +:+ t +:+ u.
Proof. induction s as [|a s IH]; [done | exact (f_equal (String a) IH)]. Qed.

Section HandlerFacts.
Context `{Collaborators}.

(** The handler, path by path: where it stops, which calls it has made by
    then, and what it returns or raises. *)
Lemma list_allocation_candidates_run (req : Request) :
  list_allocation_candidates req
  = let want_version := environ_microversion req in
    let validate := Call_validate_query_params (get_schema want_version) in
    match version_refused "1.10" want_version with
    | Some exc => ([], Raise exc)
    | None =>
    match accept_refused ["application/json"] (accept req) with
    | Some exc => ([], Raise exc)
    | None =>
    match schema_violation (get_schema want_version) (GET req) with
    | Some description => ([validate], Raise (HTTPBadRequest description))
    | None =>
        match parse_qs_request_groups (GET req) with
        | inl exc => ([validate; Call_parse_qs_request_groups], Raise exc)
        | inr requests =>
            match limit_argument (GET req) with
            | inl exc => ([validate; Call_parse_qs_request_groups], Raise exc)
            | inr limit =>
                match get_by_requests (environ_context req) requests limit with
                | inl exc =>
                    ([validate; Call_parse_qs_request_groups;
                      Call_get_by_requests requests limit],
                     Raise
                       match exc with
                       | ResourceClassNotFound _ =>
                           HTTPBadRequest
                             ("Invalid resource class in resources parameter: "
                              +:+ text_type exc)
                       | TraitNotFound _ => HTTPBadRequest (text_type exc)
                       | _ => exc
                       end)
                | inr cands =>
                    ([validate; Call_parse_qs_request_groups;
                      Call_get_by_requests requests limit;
                      Call_transform_allocation_candidates cands want_version]
                     ++ (if matches want_version (1, 15) then [Call_utcnow] else []),
                     Return
                       {| body :=
                            to_utf8 (dumps (_transform_allocation_candidates
                                              cands want_version));
                          content_type := "application/json";
                          cache_control :=
                            if matches want_version (1, 15)
                            then Some "no-cache"
                            else cache_control (response req);
                          last_modified :=
                            if matches want_version (1, 15)
                            then Some utcnow
                            else last_modified (response req) |})
                end
            end
        end
    end
    end
    end.
Proof.
  unfold list_allocation_candidates, PlacementWsgify, version_handler,
    check_accept, validate_query_params.
  unfold mbind, M_bind, bind, try_except, called, lift, ret, raise. simpl.
  destruct (version_refused _ _) as [refusal|]; [done|].
  destruct (accept_refused _ _) as [refusal|]; [done|].
  destruct (schema_violation _ _) as [description|]; [done|].
  destruct (parse_qs_request_groups _) as [exc|requests]; [done|].
  destruct (limit_argument _) as [exc|limit]; [done|].
  destruct (get_by_requests _ _ _) as [exc|cands]; simpl.
  - by destruct exc.
  - by destruct (matches _ (1, 15)).
Qed.

(** C7: the query of a request that the decorators let through is
    validated once, against the schema of the highest threshold the
    version reaches: 1.21, else 1.17, else 1.16, else the schema of 1.10. *)
Theorem schema_selection (req : Request) :
  passes_decorators req →
  let want_version := environ_microversion req in
  get_schema want_version
  = (if decide (version_le (1, 21) want_version) then GET_SCHEMA_1_21
     else if decide (version_le (1, 17) want_version) then GET_SCHEMA_1_17
     else if decide (version_le (1, 16) want_version) then GET_SCHEMA_1_16
     else GET_SCHEMA_1_10)
  ∧ head (list_allocation_candidates req).1
    = Some (Call_validate_query_params (get_schema want_version))
  ∧ filter (fun c => is_validate_query_params c) (list_allocation_candidates req).1
    = [Call_validate_query_params (get_schema want_version)].
Proof.
  intros [Hversion Haccept] want_version. split.
  - unfold get_schema. rewrite !matches_decide.
    repeat (case_decide;
            [by rewrite bool_decide_true | rewrite bool_decide_false by done]).
    done.
  - rewrite list_allocation_candidates_run. cbv zeta.
    rewrite Hversion, Haccept.
    destruct (schema_violation _ _); [done|].
    destruct (parse_qs_request_groups _); [done|].
    destruct (limit_argument _); [done|].
    destruct (get_by_requests _ _ _); [done|].
    by destruct (matches _ (1, 15)).
Qed.

(** C5: a query that fails validation stops the handler at once.  For a
    request that the decorators let through, the exception of
    [validate_query_params], an HTTP 400, is the handler's outcome; the
    validation is the only call made, so the matching engine is not called
    and nothing is transformed. *)
Theorem validation_failure_stops_early (req : Request) (exc : exn) :
  passes_decorators req →
  (validate_query_params req (get_schema (environ_microversion req))).2 = Raise exc →
  (∃ description, exc = HTTPBadRequest description)
  ∧ (list_allocation_candidates req).2 = Raise exc
  ∧ (list_allocation_candidates req).1
    = [Call_validate_query_params (get_schema (environ_microversion req))]
  ∧ Forall (fun c => is_get_by_requests c = false ∧ is_transform c = false)
      (list_allocation_candidates req).1.
Proof.
  intros [Hversion Haccept].
  rewrite list_allocation_candidates_run. cbv zeta. rewrite Hversion, Haccept.
  unfold validate_query_params.
  unfold mbind, M_bind, bind, called, ret, raise. simpl.
  destruct (schema_violation _ _) as [description|]; simpl; [|done].
  intros [= <-]. split; [by exists description|].
  do 2 (split; [done|]). by repeat constructor.
Qed.

(** C6, for a request that the decorators let through: the two known
    failures of the matching engine become an HTTP 400
    whose message ends with the text of the exception, and so names what
    that text names; any other exception leaves the handler as it came.
    In each case the engine has been called once and nothing has been
    transformed. *)
Theorem engine_errors_translated (req : Request) (requests : RequestGroups)
    (limit : Limit) (exc : exn) :
  passes_decorators req →
  (validate_query_params req (get_schema (environ_microversion req))).2 = Return tt →
  parse_qs_request_groups (GET req) = inr requests →
  limit_argument (GET req) = inr limit →
  get_by_requests (environ_context req) requests limit = inl exc →
  (list_allocation_candidates req).1
  = [Call_validate_query_params (get_schema (environ_microversion req));
     Call_parse_qs_request_groups;
     Call_get_by_requests requests limit]
  ∧ Forall (fun c => is_transform c = false) (list_allocation_candidates req).1
  ∧ match exc with
    | ResourceClassNotFound resource_class =>
        ∃ message,
          (list_allocation_candidates req).2 = Raise (HTTPBadRequest message)
          ∧ message = "Invalid resource class in resources parameter: "
                      +:+ text_type exc
          ∧ (contains resource_class (text_type exc) →
             contains resource_class message)
    | TraitNotFound names =>
        ∃ message,
          (list_allocation_candidates req).2 = Raise (HTTPBadRequest message)
          ∧ message = text_type exc
          ∧ (contains names (text_type exc) → contains names message)
    | _ => (list_allocation_candidates req).2 = Raise exc
    end.
Proof.
  intros [Hversion Haccept].
  rewrite list_allocation_candidates_run. cbv zeta. rewrite Hversion, Haccept.
  unfold validate_query_params.
  unfold mbind, M_bind, bind, called, ret, raise. simpl.
  destruct (schema_violation _ _) as [description|]; simpl; [done|].
  intros _ -> -> ->. simpl. split; [done|]. split; [by repeat constructor|].
  destruct exc as [resource_class|names|explanation|class_name args]; try done.
  - eexists. split; [done|]. split; [done|].
    intros (before & after & ->).
    exists ("Invalid resource class in resources parameter: " +:+ before), after.
    by rewrite append_assoc.
  - eexists. split; [done|]. by split.
Qed.

(** C8, for a request that the decorators let through: the limit of the
    query goes to the matching engine as it was read, and the engine's answer is transformed and serialized whole:
    whatever the limit, [allocation_requests] has one element for each
    candidate the engine returned. *)
Theorem results_never_truncated (req : Request) (requests : RequestGroups)
    (limit : Limit) (cands : AllocationCandidates) :
  passes_decorators req →
  (validate_query_params req (get_schema (environ_microversion req))).2 = Return tt →
  parse_qs_request_groups (GET req) = inr requests →
  limit_argument (GET req) = inr limit →
  get_by_requests (environ_context req) requests limit = inr cands →
  let trx_cands :=
    _transform_allocation_candidates cands (environ_microversion req) in
  (match getall "limit" (GET req) with
   | [] => limit = LimitEmptyList
   | first :: _ => ∃ n, int first = inr n ∧ limit = LimitInt n
   end)
  ∧ filter (fun c => is_get_by_requests c) (list_allocation_candidates req).1
    = [Call_get_by_requests requests limit]
  ∧ filter (fun c => is_transform c) (list_allocation_candidates req).1
    = [Call_transform_allocation_candidates cands (environ_microversion req)]
  ∧ (∃ resp, (list_allocation_candidates req).2 = Return resp
             ∧ body resp = to_utf8 (dumps trx_cands))
  ∧ ∃ a_reqs, getitem "allocation_requests" trx_cands = Some (PList a_reqs)
              ∧ length a_reqs = length (allocation_requests cands).
Proof.
  intros [Hversion Haccept].
  rewrite list_allocation_candidates_run. cbv zeta. rewrite Hversion, Haccept.
  unfold validate_query_params.
  unfold mbind, M_bind, bind, called, ret, raise. simpl.
  destruct (schema_violation _ _) as [description|]; simpl; [done|].
  intros _ Hparse Hlimit Hengine.
  rewrite Hparse, Hlimit, Hengine. simpl. split; [|split; [|split; [|split]]].
  - unfold limit_argument in Hlimit.
    destruct (getall "limit" (GET req)) as [|first rest]; [congruence|].
    destruct (int first) as [?|n]; [done|]. exists n. split; congruence.
  - by destruct (matches _ (1, 15)).
  - by destruct (matches _ (1, 15)).
  - by eexists.
  - unfold _transform_allocation_candidates, getitem. simpl. eexists. split; [done|].
    destruct (matches _ (1, 12));
      [rewrite transform_dict_fmap | rewrite transform_list_fmap];
      apply length_fmap.
Qed.

End HandlerFacts.

(** ** The examples *)

Import Scenario.

(** The spec's scenario below the compact-format threshold ... *)
Example scenario_flat_list :
  _transform_allocation_requests_list [two_providers]
  = [PDict [("allocations",
       PList [PDict [("resource_provider", PDict [("uuid", PStr "A")]);
                     ("resources", PDict [("VCPU", PInt 2)])];
              PDict [("resource_provider", PDict [("uuid", PStr "B")]);
                     ("resources", PDict [("MEMORY_MB", PInt 512)])]])]].
Proof. reflexivity. Qed.

(** ... and at or above it. *)
Example scenario_grouped :
  _transform_allocation_requests_dict [two_providers]
  = [PDict [("allocations",
       PDict [("A", PDict [("resources", PDict [("VCPU", PInt 2)])]);
              ("B", PDict [("resources", PDict [("MEMORY_MB", PInt 512)])])])]].
Proof. reflexivity. Qed.

(** C3, as the spec has it, fails: a candidate that names the pair
    (A, VCPU) twice is not rejected.  Both transformers return, the later
    amount has replaced the earlier one, and the handler answers. *)
Lemma duplicate_pair_not_rejected :
  ¬ NoDup (rr_key <$> resource_requests duplicate_pair)
  ∧ _transform_allocation_requests_dict [duplicate_pair]
    = [PDict [("allocations",
         PDict [("A", PDict [("resources", PDict [("VCPU", PInt 2)])])])]]
  ∧ _transform_allocation_requests_list [duplicate_pair]
    = [PDict [("allocations",
         PList [PDict [("resource_provider", PDict [("uuid", PStr "A")]);
                       ("resources", PDict [("VCPU", PInt 2)])]])]]
  ∧ ∃ resp, (list_allocation_candidates duplicate_request).2 = Return resp.
Proof.
  split; [|split; [|split]].
  - apply (bool_decide_unpack _). vm_compute. exact I.
  - reflexivity.
  - reflexivity.
  - eexists. vm_compute. reflexivity.
Qed.

(** C7 at work: at 1.16 the query is validated against the schema of 1.16. *)
Lemma schema_selection_witness :
  passes_decorators limited_request
  ∧ get_schema (environ_microversion limited_request) = GET_SCHEMA_1_16
  ∧ filter (fun c => is_validate_query_params c)
      (list_allocation_candidates limited_request).1
    = [Call_validate_query_params GET_SCHEMA_1_16].
Proof.
  assert (passes_decorators limited_request) as Hpasses by (split; reflexivity).
  split; [exact Hpasses|].
  destruct (schema_selection limited_request Hpasses) as (_ & _ & Hlog).
  split; [reflexivity | exact Hlog].
Defined.

(** C5 at work: a parameter no schema allows. *)
Lemma validation_failure_stops_early_witness :
  passes_decorators malformed_request
  ∧ (validate_query_params malformed_request
     (get_schema (environ_microversion malformed_request))).2
  = Raise (HTTPBadRequest "Additional properties are not allowed: colour")
  ∧ (list_allocation_candidates malformed_request).2
    = Raise (HTTPBadRequest "Additional properties are not allowed: colour")
  ∧ (list_allocation_candidates malformed_request).1
    = [Call_validate_query_params GET_SCHEMA_1_10].
Proof.
  assert ((validate_query_params malformed_request
             (get_schema (environ_microversion malformed_request))).2
          = Raise (HTTPBadRequest "Additional properties are not allowed: colour"))
    as Hraises by reflexivity.
  assert (passes_decorators malformed_request) as Hpasses by (split; reflexivity).
  split; [exact Hpasses|]. split; [exact Hraises|].
  destruct (validation_failure_stops_early malformed_request _ Hpasses Hraises)
    as (_ & Hout & Hlog & _).
  split; [exact Hout | exact Hlog].
Defined.

(** C6 at work: the class [BOGUS] is named in the message of the 400. *)
Lemma engine_errors_translated_witness :
  passes_decorators bogus_class_request
  ∧ get_by_requests (environ_context bogus_class_request)
    (GET bogus_class_request) LimitEmptyList
  = inl (ResourceClassNotFound "BOGUS")
  ∧ ∃ message,
      (list_allocation_candidates bogus_class_request).2
      = Raise (HTTPBadRequest message)
      ∧ contains "BOGUS" message.
Proof.
  assert (passes_decorators bogus_class_request) as Hpasses by (split; reflexivity).
  split; [exact Hpasses|]. split; [reflexivity|].
  pose proof (engine_errors_translated bogus_class_request
                (GET bogus_class_request) LimitEmptyList
                (ResourceClassNotFound "BOGUS")
                Hpasses eq_refl eq_refl eq_refl eq_refl) as Hthm.
  cbv beta iota in Hthm.
  destruct Hthm as (_ & _ & message & Hout & _ & Hname).
  exists message. split; [exact Hout|].
  apply Hname. exists "No such resource class ", ".". reflexivity.
Defined.

(** C8 at work: [limit=2] reaches the engine as 2, and the five candidates
    it returns all the same are all in the response. *)
Lemma results_never_truncated_witness :
  passes_decorators limited_request
  ∧ limit_argument (GET limited_request) = inr (LimitInt 2)
  ∧ get_by_requests (environ_context limited_request) (GET limited_request)
      (LimitInt 2)
    = inr five_candidates
  ∧ filter (fun c => is_get_by_requests c)
      (list_allocation_candidates limited_request).1
    = [Call_get_by_requests (GET limited_request) (LimitInt 2)]
  ∧ ∃ a_reqs,
      getitem "allocation_requests"
        (_transform_allocation_candidates five_candidates (1, 16))
      = Some (PList a_reqs)
      ∧ length a_reqs = 5%nat.
Proof.
  assert (passes_decorators limited_request) as Hpasses by (split; reflexivity).
  split; [exact Hpasses|]. do 2 (split; [reflexivity|]).
  destruct (results_never_truncated limited_request (GET limited_request)
              (LimitInt 2) five_candidates Hpasses
              eq_refl eq_refl eq_refl eq_refl)
    as (_ & Hcall & _ & _ & a_reqs & Ha_reqs & Hlen).
  split; [exact Hcall|]. exists a_reqs. split; [exact Ha_reqs | exact Hlen].
Defined.

(** What a client reads off the two formats of the spec's scenario. *)
Example scenario_facts :
  facts_of_list_format (list_candidate two_providers)
  = [("A", "VCPU", 2); ("B", "MEMORY_MB", 512)]
  ∧ facts_of_dict_format (dict_candidate two_providers)
    = [("A", "VCPU", 2); ("B", "MEMORY_MB", 512)].
Proof. split; reflexivity. Qed.

(** An unknown trait is answered with a 400 that carries the text of
    [TraitNotFound]; the transformer is not reached. *)
Example unknown_trait_is_bad_request :
  list_allocation_candidates bogus_trait_request
  = ([Call_validate_query_params GET_SCHEMA_1_17;
      Call_parse_qs_request_groups;
      Call_get_by_requests (GET bogus_trait_request) LimitEmptyList],
     Raise (HTTPBadRequest "No such trait(s): HW_BOGUS.")).
Proof. reflexivity. Qed.

(** A failure the handler does not know leaves it unchanged. *)
Example unknown_failure_propagates :
  list_allocation_candidates crashing_request
  = ([Call_validate_query_params GET_SCHEMA_1_17;
      Call_parse_qs_request_groups;
      Call_get_by_requests (GET crashing_request) LimitEmptyList],
     Raise (OtherException "DBConnectionError" "connection lost")).
Proof. reflexivity. Qed.

(** With [limit=2] and an engine that returns five candidates, the body
    lists all five. *)
Example five_candidates_serialized :
  (fun r => match r with
            | Return resp => Some (body resp)
            | Raise _ => None
            end) (list_allocation_candidates limited_request).2
  = Some (to_utf8 (dumps (PDict
      [("allocation_requests",
        PList (_transform_allocation_requests_dict
                 [two_providers; shared_provider; two_providers;
                  shared_provider; two_providers]));
       ("provider_summaries",
        PDict (_transform_provider_summaries [summary_A; summary_B] false))]))).
Proof. vm_compute. reflexivity. Qed.

(** * More of the module *)

(** ** The order of the output *)

Lemma first_occurrences_snoc l x :
  first_occurrences (l ++ [x])
  = if decide (x ∈ first_occurrences l)
    then first_occurrences l
    else first_occurrences l ++ [x].
Proof. unfold first_occurrences. by rewrite foldl_app. Qed.

Lemma elem_of_first_occurrences l x : x ∈ first_occurrences l ↔ x ∈ l.
Proof.
  induction l as [|y l IH] using rev_ind; [done|].
  rewrite first_occurrences_snoc, elem_of_app, list_elem_of_singleton.
  case_decide as Hy.
  - rewrite <- IH. split; [auto | intros [?| ->]; done].
  - by rewrite elem_of_app, list_elem_of_singleton, IH.
Qed.

Lemma NoDup_first_occurrences l : NoDup (first_occurrences l).
Proof.
  induction l as [|y l IH] using rev_ind; [apply NoDup_nil_2|].
  rewrite first_occurrences_snoc. case_decide as Hy; [done|].
  apply NoDup_app. split; [done|]. split; [|apply NoDup_singleton].
  intros x Hx ->%list_elem_of_singleton. done.
Qed.

Lemma keys_dict_set {V} k (v : V) d :
  keys (dict_set k v d) = if decide (k ∈ keys d) then keys d else keys d ++ [k].
Proof.
  case_decide; [by apply keys_set_present | by apply keys_set_fresh].
Qed.

Lemma keys_map_values {V W} (f : V → W) (d : pydict V) :
  keys (map_values f d) = keys d.
Proof.
  unfold keys, map_values. induction d as [|[k v] d IH]; csimpl; [done|].
  by rewrite IH.
Qed.

(** What one turn of the inner loop leaves under each provider. *)
Lemma dict_get_list_loop_body g rr p :
  dict_get p (list_loop_body g rr)
  = if decide (uuid (rr_resource_provider rr) = p)
    then Some (dict_set (rr_resource_class rr) (amount rr)
                 (default empty (dict_get p g)))
    else dict_get p g.
Proof.
  unfold list_loop_body, defaultdict_getitem.
  destruct (dict_get (uuid (rr_resource_provider rr)) g) as [r|] eqn:Hu;
    rewrite !dict_get_set; case_decide as Hp; subst; by rewrite ?Hu.
Qed.

Lemma keys_list_loop_body g rr :
  keys (list_loop_body g rr)
  = if decide (uuid (rr_resource_provider rr) ∈ keys g)
    then keys g
    else keys g ++ [uuid (rr_resource_provider rr)].
Proof.
  unfold list_loop_body, defaultdict_getitem.
  destruct (dict_get (uuid (rr_resource_provider rr)) g) as [r|] eqn:Hu.
  - apply keys_dict_set.
  - by rewrite dict_set_set, keys_dict_set.
Qed.

Lemma keys_list_loop rrs :
  keys (foldl list_loop_body empty rrs) = first_occurrences (providers_of rrs).
Proof.
  unfold providers_of. induction rrs as [|rr rrs IH] using rev_ind; [done|].
  rewrite foldl_app, fmap_app. simpl.
  by rewrite keys_list_loop_body, first_occurrences_snoc, IH.
Qed.

Lemma classes_of_absent p rrs : p ∉ providers_of rrs → classes_of p rrs = [].
Proof.
  unfold providers_of, classes_of. induction rrs as [|rr rrs IH]; csimpl; [done|].
  rewrite not_elem_of_cons. intros [Hne Hnin].
  rewrite filter_cons_False by (simpl; congruence). auto.
Qed.

Lemma classes_list_loop rrs p :
  keys <$> dict_get p (foldl list_loop_body empty rrs)
  = if decide (p ∈ providers_of rrs)
    then Some (first_occurrences (classes_of p rrs))
    else None.
Proof.
  induction rrs as [|rr rrs IH] using rev_ind.
  { rewrite decide_False; [done | apply not_elem_of_nil]. }
  rewrite foldl_app. simpl. rewrite dict_get_list_loop_body.
  unfold providers_of, classes_of in *.
  rewrite fmap_app, filter_app, filter_cons, filter_nil. simpl.
  destruct (decide (uuid (rr_resource_provider rr) = p)) as [Hu|Hu].
  - rewrite decide_True by (rewrite elem_of_app, list_elem_of_singleton; auto).
    rewrite fmap_app. simpl. rewrite first_occurrences_snoc, keys_dict_set.
    destruct (decide (p ∈ _ <$> rrs)) as [Hin|Hnin].
    + destruct (dict_get p _) as [r|]; [|done].
      injection IH as IH. simpl. by rewrite IH.
    + destruct (dict_get p _) as [r|]; [done|]. simpl.
      fold (classes_of p rrs). rewrite (classes_of_absent p rrs Hnin). done.
  - rewrite app_nil_r, IH.
    destruct (decide (p ∈ _ <$> rrs)) as [Hin|Hnin].
    + rewrite decide_True; [done|]. rewrite elem_of_app; auto.
    + rewrite decide_False; [done|].
      rewrite elem_of_app, list_elem_of_singleton. intros [?|?]; congruence.
Qed.

Lemma providers_of_list_candidate ar :
  providers_of_list_format (list_candidate ar)
  = Some (keys (foldl list_loop_body empty (resource_requests ar))).
Proof.
  unfold providers_of_list_format, list_candidate, getitem, keys. simpl.
  generalize (foldl list_loop_body empty (resource_requests ar)). intros g.
  apply mapM_Some.
  induction g as [|[p r] g IH]; csimpl; constructor; [done | exact IH].
Qed.

Lemma providers_of_dict_candidate ar :
  providers_of_dict_format (dict_candidate ar)
  = Some (keys (foldl list_loop_body empty (resource_requests ar))).
Proof.
  unfold providers_of_dict_format, dict_candidate, getitem, py_rp_resources. simpl.
  change (@empty (pydict (pydict Z))) with (map_values wrap (@empty (pydict Z))).
  by rewrite dict_loop_wrap, !keys_map_values.
Qed.

Lemma classes_in_list_candidate ar p :
  classes_in_list_format (list_candidate ar) p
  = keys <$> dict_get p (foldl list_loop_body empty (resource_requests ar)).
Proof.
  unfold classes_in_list_format, list_candidate, getitem. simpl.
  generalize (foldl list_loop_body empty (resource_requests ar)). intros g.
  induction g as [|[q r] g IH]; csimpl; [done|].
  rewrite filter_cons. unfold entry_uuid at 1, getitem; simpl.
  destruct (decide (p = q)) as [->|Hne].
  - rewrite decide_True by done. simpl.
    unfold py_resources, resource_classes. simpl. by rewrite keys_map_values.
  - rewrite decide_False by (intros [= ->]; done). apply IH.
Qed.

Lemma classes_in_dict_candidate ar p :
  classes_in_dict_format (dict_candidate ar) p
  = keys <$> dict_get p (foldl list_loop_body empty (resource_requests ar)).
Proof.
  unfold classes_in_dict_format, dict_candidate, getitem, py_rp_resources. simpl.
  change (@empty (pydict (pydict Z))) with (map_values wrap (@empty (pydict Z))).
  rewrite dict_loop_wrap, !dict_get_map_values.
  destruct (dict_get p _) as [r|]; simpl; [|done].
  unfold py_resources, resource_classes. simpl. by rewrite keys_map_values.
Qed.

(** X1: either format names every provider of a candidate once, in the
    order in which the candidate's requests first mention them; the two
    formats give the same list. *)
Theorem providers_in_order_of_first_mention (ar : AllocationRequest) :
  ∃ flat grouped,
    _transform_allocation_requests_list [ar] = [flat]
    ∧ _transform_allocation_requests_dict [ar] = [grouped]
    ∧ providers_of_list_format flat
      = Some (first_occurrences (providers_of (resource_requests ar)))
    ∧ providers_of_dict_format grouped
      = Some (first_occurrences (providers_of (resource_requests ar)))
    ∧ NoDup (first_occurrences (providers_of (resource_requests ar)))
    ∧ ∀ p, p ∈ first_occurrences (providers_of (resource_requests ar))
           ↔ p ∈ providers_of (resource_requests ar).
Proof.
  exists (list_candidate ar), (dict_candidate ar).
  rewrite transform_list_fmap, transform_dict_fmap.
  rewrite providers_of_list_candidate, providers_of_dict_candidate, keys_list_loop.
  repeat split; try done.
  - apply NoDup_first_occurrences.
  - by apply elem_of_first_occurrences.
  - by apply elem_of_first_occurrences.
Qed.

(** X2: under a provider, either format lists every resource class asked
    of that provider once, in the order in which the requests for that
    provider first mention them; a provider that no request names has no
    entry. *)
Theorem classes_in_order_of_first_mention (ar : AllocationRequest) (p : string) :
  ∃ flat grouped,
    _transform_allocation_requests_list [ar] = [flat]
    ∧ _transform_allocation_requests_dict [ar] = [grouped]
    ∧ classes_in_list_format flat p
      = (if decide (p ∈ providers_of (resource_requests ar))
         then Some (first_occurrences (classes_of p (resource_requests ar)))
         else None)
    ∧ classes_in_dict_format grouped p
      = (if decide (p ∈ providers_of (resource_requests ar))
         then Some (first_occurrences (classes_of p (resource_requests ar)))
         else None).
Proof.
  exists (list_candidate ar), (dict_candidate ar).
  rewrite transform_list_fmap, transform_dict_fmap.
  rewrite classes_in_list_candidate, classes_in_dict_candidate, classes_list_loop.
  done.
Qed.

Example shared_provider_order :
  providers_of_list_format (list_candidate shared_provider) = Some ["A"; "B"]
  ∧ classes_in_dict_format (dict_candidate shared_provider) "A"
    = Some ["VCPU"; "MEMORY_MB"]
  ∧ classes_in_list_format (list_candidate shared_provider) "C" = None.
Proof. repeat split; reflexivity. Qed.

(** ** More of the provider summaries *)

Lemma summary_resources_get rc ps :
  dict_get rc (summary_resources ps)
  = (fun psr => PDict [("capacity", PInt (capacity psr));
                       ("used", PInt (used psr))])
    <$> last_inventory rc ps.
Proof.
  unfold summary_resources, last_inventory.
  induction (ps_resources ps) as [|psr l IH] using rev_ind; [done|].
  rewrite foldl_app. simpl.
  rewrite dict_get_set, filter_app, filter_cons, filter_nil.
  case_decide.
  - by rewrite last_snoc.
  - by rewrite app_nil_r.
Qed.

(** X3: the capacity and usage reported for a provider and a resource
    class are those of the last inventory line for that class in the last
    summary of that provider; a class or provider that is not there has no
    entry. *)
Theorem reported_inventory (p_sums : list ProviderSummary)
    (include_traits : bool) (u rc : string) :
  (entry ← dict_get u (_transform_provider_summaries p_sums include_traits);
   resources ← getitem "resources" entry;
   getitem rc resources)
  = (ps ← last_summary u p_sums;
     psr ← last_inventory rc ps;
     Some (PDict [("capacity", PInt (capacity psr)); ("used", PInt (used psr))])).
Proof.
  rewrite summaries_get.
  destruct (last_summary u p_sums) as [ps|]; simpl; [|done].
  unfold getitem. simpl. rewrite summary_resources_get.
  by destruct (last_inventory rc ps).
Qed.

(** X4: when traits are included, the traits of a provider are the trait
    names of its last summary, in the order and with the repetitions the
    summary has them; when they are not, there is no ["traits"] to read. *)
Theorem reported_traits (p_sums : list ProviderSummary)
    (include_traits : bool) (u : string) :
  (entry ← dict_get u (_transform_provider_summaries p_sums include_traits);
   getitem "traits" entry)
  = (if include_traits
     then ps ← last_summary u p_sums;
          Some (PList ((fun t => PStr (name t)) <$> traits ps))
     else None).
Proof.
  rewrite summaries_get.
  destruct (last_summary u p_sums) as [ps|], include_traits; done.
Qed.

(** X5: the providers of [provider_summaries] stand in the order in which
    the summaries first mention them. *)
Theorem provider_summaries_order (p_sums : list ProviderSummary)
    (include_traits : bool) :
  keys (_transform_provider_summaries p_sums include_traits)
  = first_occurrences ((fun ps => uuid (ps_resource_provider ps)) <$> p_sums).
Proof.
  induction p_sums as [|ps p_sums IH] using rev_ind; [done|].
  rewrite transform_summaries_snoc, keys_dict_set, fmap_app. simpl.
  by rewrite first_occurrences_snoc, IH.
Qed.

(** X6: including the traits adds the ["traits"] field and changes nothing
    else: the same providers in the same order, and under every provider
    the same value for every other field. *)
Theorem traits_only_add (p_sums : list ProviderSummary) (u field : string) :
  field ≠ "traits" →
  keys (_transform_provider_summaries p_sums true)
  = keys (_transform_provider_summaries p_sums false)
  ∧ (entry ← dict_get u (_transform_provider_summaries p_sums true);
     getitem field entry)
    = (entry ← dict_get u (_transform_provider_summaries p_sums false);
       getitem field entry).
Proof.
  intros Hfield. split; [by rewrite !provider_summaries_order|].
  rewrite !summaries_get.
  destruct (last_summary u p_sums) as [ps|]; simpl; [|done].
  unfold getitem. simpl.
  case_decide; [done|]. by rewrite decide_False.
Qed.

Lemma traits_only_add_witness :
  "resources" ≠ "traits"
  ∧ (entry ← dict_get "A" (_transform_provider_summaries
                              [Scenario.summary_A; Scenario.summary_B] true);
     getitem "resources" entry)
    = (entry ← dict_get "A" (_transform_provider_summaries
                                [Scenario.summary_A; Scenario.summary_B] false);
       getitem "resources" entry).
Proof.
  assert ("resources" ≠ "traits") as Hfield by discriminate.
  split; [exact Hfield|].
  apply (traits_only_add [Scenario.summary_A; Scenario.summary_B] "A" "resources" Hfield).
Defined.

(** X7: the version reaches the body through the thresholds 1.12 and 1.17
    only: two versions on the same side of both give the same object. *)
Theorem body_changes_at_thresholds_only (alloc_cands : AllocationCandidates)
    (v1 v2 : Version) :
  (version_le (1, 12) v1 ↔ version_le (1, 12) v2) →
  (version_le (1, 17) v1 ↔ version_le (1, 17) v2) →
  _transform_allocation_candidates alloc_cands v1
  = _transform_allocation_candidates alloc_cands v2.
Proof.
  intros H12 H17. unfold _transform_allocation_candidates.
  rewrite !matches_decide.
  by rewrite (bool_decide_ext _ _ H12), (bool_decide_ext _ _ H17).
Qed.

Lemma body_changes_at_thresholds_only_witness :
  (version_le (1, 12) (1, 13) ↔ version_le (1, 12) (1, 16))
  ∧ (version_le (1, 17) (1, 13) ↔ version_le (1, 17) (1, 16))
  ∧ _transform_allocation_candidates Scenario.five_candidates (1, 13)
    = _transform_allocation_candidates Scenario.five_candidates (1, 16).
Proof.
  assert (version_le (1, 12) (1, 13) ↔ version_le (1, 12) (1, 16)) as H12
    by (unfold version_le; simpl; lia).
  assert (version_le (1, 17) (1, 13) ↔ version_le (1, 17) (1, 16)) as H17
    by (unfold version_le; simpl; lia).
  split; [exact H12|]. split; [exact H17|].
  exact (body_changes_at_thresholds_only Scenario.five_candidates _ _ H12 H17).
Defined.

(** ** More of the handler *)

Lemma getall_absent (k : string) (query : MultiDict) :
  k ∉ query.*1 → getall k query = [].
Proof.
  unfold getall, MultiDict. induction query as [|[k' v] query IH]; csimpl; [done|].
  rewrite not_elem_of_cons. intros [Hne Hnin].
  rewrite filter_cons_False by (simpl; congruence). auto.
Qed.

Section MoreHandlerFacts.
Context `{Collaborators}.

(** X8, for a request that the decorators let through: a successful
    response is always [application/json].  From 1.15 on
    it is marked [no-cache] and stamped with the clock, which is read
    once; below 1.15 the two headers stay as the request's response had
    them and the clock is not read. *)
Theorem response_headers (req : Request) (requests : RequestGroups)
    (limit : Limit) (cands : AllocationCandidates) :
  passes_decorators req →
  (validate_query_params req (get_schema (environ_microversion req))).2 = Return tt →
  parse_qs_request_groups (GET req) = inr requests →
  limit_argument (GET req) = inr limit →
  get_by_requests (environ_context req) requests limit = inr cands →
  ∃ resp,
    (list_allocation_candidates req).2 = Return resp
    ∧ content_type resp = "application/json"
    ∧ (version_le (1, 15) (environ_microversion req) →
       cache_control resp = Some "no-cache"
       ∧ last_modified resp = Some utcnow
       ∧ filter (fun c => is_utcnow c) (list_allocation_candidates req).1
         = [Call_utcnow])
    ∧ (version_lt (environ_microversion req) (1, 15) →
       cache_control resp = cache_control (response req)
       ∧ last_modified resp = last_modified (response req)
       ∧ Forall (fun c => is_utcnow c = false)
           (list_allocation_candidates req).1).
Proof.
  intros [Hversion Haccept].
  rewrite list_allocation_candidates_run. cbv zeta. rewrite Hversion, Haccept.
  unfold validate_query_params.
  unfold mbind, M_bind, bind, called, ret, raise. simpl.
  destruct (schema_violation _ _) as [description|]; simpl; [done|].
  intros _ Hparse Hlimit Hengine. rewrite Hparse, Hlimit, Hengine. simpl.
  eexists. split; [done|]. split; [done|]. split.
  - intros Hle%matches_version_le. rewrite Hle. simpl.
    by repeat split.
  - intros Hlt%matches_version_lt. rewrite Hlt. simpl.
    repeat split. by repeat constructor.
Qed.

(** X9, for a request that the decorators let through: an exception of
    [parse_qs_request_groups] leaves the handler as it came, whatever its class: the [try] does not cover the parser, so even
    a [ResourceClassNotFound] raised there is not turned into a 400.  The
    matching engine is not called. *)
Theorem parse_failure_propagates (req : Request) (exc : exn) :
  passes_decorators req →
  (validate_query_params req (get_schema (environ_microversion req))).2 = Return tt →
  parse_qs_request_groups (GET req) = inl exc →
  list_allocation_candidates req
  = ([Call_validate_query_params (get_schema (environ_microversion req));
      Call_parse_qs_request_groups],
     Raise exc).
Proof.
  intros [Hversion Haccept].
  rewrite list_allocation_candidates_run. cbv zeta. rewrite Hversion, Haccept.
  unfold validate_query_params.
  unfold mbind, M_bind, bind, called, ret, raise. simpl.
  destruct (schema_violation _ _) as [description|]; simpl; [done|].
  by intros _ ->.
Qed.

(** X11: only the first [limit] of the query counts: what stands before it
    under other names and everything after it, further limits included,
    does not change what the engine is given. *)
Theorem first_limit_counts (before after : MultiDict) (value : string) :
  "limit" ∉ before.*1 →
  limit_argument (before ++ ("limit", value) :: after)
  = limit_argument [("limit", value)].
Proof.
  intros Hbefore. apply getall_absent in Hbefore.
  unfold limit_argument, getall, MultiDict in *.
  rewrite filter_app, filter_cons_True by done.
  rewrite fmap_app, Hbefore. done.
Qed.

(** X12, for a request that the decorators let through: without a
    [limit] in the query the engine is called with the
    empty list that [getall] returned, and [int] has no say in it. *)
Theorem absent_limit_is_empty_list (req : Request) (requests : RequestGroups) :
  passes_decorators req →
  (validate_query_params req (get_schema (environ_microversion req))).2 = Return tt →
  parse_qs_request_groups (GET req) = inr requests →
  "limit" ∉ (GET req).*1 →
  filter (fun c => is_get_by_requests c) (list_allocation_candidates req).1
  = [Call_get_by_requests requests LimitEmptyList].
Proof.
  intros [Hversion Haccept].
  rewrite list_allocation_candidates_run. cbv zeta. rewrite Hversion, Haccept.
  unfold validate_query_params.
  unfold mbind, M_bind, bind, called, ret, raise, limit_argument. simpl.
  destruct (schema_violation _ _) as [description|]; simpl; [done|].
  intros _ -> Hlimit. rewrite (getall_absent _ _ Hlimit).
  destruct (get_by_requests _ _ _); [done|].
  by destruct (matches _ (1, 15)).
Qed.

(** X13: the handler answers only with what the engine returned: if it
    returns a response, then the query passed validation and parsing, the
    engine returned candidates for the parsed groups and the limit read,
    and the body is the serialization of their transform. *)
Theorem response_only_from_engine (req : Request) (resp : Response) :
  (list_allocation_candidates req).2 = Return resp →
  ∃ requests limit cands,
    schema_violation (get_schema (environ_microversion req)) (GET req) = None
    ∧ parse_qs_request_groups (GET req) = inr requests
    ∧ limit_argument (GET req) = inr limit
    ∧ get_by_requests (environ_context req) requests limit = inr cands
    ∧ body resp
      = to_utf8 (dumps (_transform_allocation_candidates cands
                          (environ_microversion req)))
    ∧ content_type resp = "application/json".
Proof.
  rewrite list_allocation_candidates_run. cbv zeta.
  destruct (version_refused _ _) as [refusal|]; [done|].
  destruct (accept_refused _ _) as [refusal|]; [done|].
  destruct (schema_violation _ _) as [description|]; [done|].
  destruct (parse_qs_request_groups _) as [exc|requests]; [done|].
  destruct (limit_argument _) as [exc|limit]; [done|].
  destruct (get_by_requests _ _ _) as [exc|cands] eqn:Hengine; [done|].
  simpl. intros [= <-]. by exists requests, limit, cands.
Qed.


End MoreHandlerFacts.

(** X8 at work: at 1.16 the response is stamped and marked [no-cache]. *)
Lemma response_headers_witness :
  passes_decorators limited_request
  ∧ get_by_requests (environ_context limited_request) (GET limited_request)
    (LimitInt 2)
  = inr five_candidates
  ∧ version_le (1, 15) (environ_microversion limited_request)
  ∧ ∃ resp,
      (list_allocation_candidates limited_request).2 = Return resp
      ∧ content_type resp = "application/json"
      ∧ cache_control resp = Some "no-cache"
      ∧ last_modified resp = Some 1525132800.
Proof.
  assert (passes_decorators limited_request) as Hpasses by (split; reflexivity).
  split; [exact Hpasses|]. split; [reflexivity|].
  assert (version_le (1, 15) (environ_microversion limited_request)) as Hle
    by (unfold version_le; simpl; lia).
  split; [exact Hle|].
  destruct (response_headers limited_request (GET limited_request)
              (LimitInt 2) five_candidates Hpasses
              eq_refl eq_refl eq_refl eq_refl)
    as (resp & Hout & Hct & Hge & _).
  destruct (Hge Hle) as (Hcc & Hlm & _).
  exists resp. repeat split; assumption.
Defined.

(** X9 at work: the parser refuses a query without resources. *)
Lemma parse_failure_propagates_witness :
  @passes_decorators StrictScenario.deployment StrictScenario.no_resources_request
  ∧ @parse_qs_request_groups StrictScenario.deployment
    (GET StrictScenario.no_resources_request)
  = inl (HTTPBadRequest "resources parameter is required")
  ∧ list_allocation_candidates StrictScenario.no_resources_request
    = ([Call_validate_query_params GET_SCHEMA_1_16;
        Call_parse_qs_request_groups],
       Raise (HTTPBadRequest "resources parameter is required")).
Proof.
  assert (@passes_decorators StrictScenario.deployment
            StrictScenario.no_resources_request) as Hpasses
    by (split; reflexivity).
  split; [exact Hpasses|]. split; [reflexivity|].
  exact (parse_failure_propagates StrictScenario.no_resources_request
           (HTTPBadRequest "resources parameter is required")
           Hpasses eq_refl eq_refl).
Defined.

(** X11 at work: [?resources=VCPU:1&limit=2&limit=5] asks for two. *)
Lemma first_limit_counts_witness :
  ("limit" ∉ [("resources", "VCPU:1")].*1)
  ∧ limit_argument ([("resources", "VCPU:1")] ++ ("limit", "2") :: [("limit", "5")])
    = inr (LimitInt 2).
Proof.
  assert ("limit" ∉ [("resources", "VCPU:1")].*1) as Hbefore.
  { apply (bool_decide_unpack _). vm_compute. exact I. }
  split; [exact Hbefore|].
  rewrite (first_limit_counts [("resources", "VCPU:1")] [("limit", "5")] "2" Hbefore).
  reflexivity.
Defined.

(** X12 at work: a query without [limit]. *)
Lemma absent_limit_is_empty_list_witness :
  passes_decorators unlimited_request
  ∧ ("limit" ∉ (GET unlimited_request).*1)
  ∧ filter (fun c => is_get_by_requests c)
      (list_allocation_candidates unlimited_request).1
    = [Call_get_by_requests (GET unlimited_request) LimitEmptyList].
Proof.
  assert ("limit" ∉ (GET unlimited_request).*1) as Hlimit.
  { apply (bool_decide_unpack _). vm_compute. exact I. }
  assert (passes_decorators unlimited_request) as Hpasses by (split; reflexivity).
  split; [exact Hpasses|]. split; [exact Hlimit|].
  exact (absent_limit_is_empty_list unlimited_request (GET unlimited_request)
           Hpasses eq_refl eq_refl Hlimit).
Defined.


(** X13 at work: the response to [?resources=VCPU:1] at 1.12 comes from
    the five candidates of the engine. *)
Lemma response_only_from_engine_witness :
  ∃ resp,
    (list_allocation_candidates unlimited_request).2 = Return resp
    ∧ ∃ requests limit cands,
        get_by_requests (environ_context unlimited_request) requests limit
        = inr cands
        ∧ body resp
          = to_utf8 (dumps (_transform_allocation_candidates cands (1, 12))).
Proof.
  exists {| body :=
              to_utf8 (dumps (_transform_allocation_candidates
                                five_candidates (1, 12)));
            content_type := "application/json";
            cache_control := None;
            last_modified := None |}.
  assert ((list_allocation_candidates unlimited_request).2
          = Return {| body :=
                        to_utf8 (dumps (_transform_allocation_candidates
                                          five_candidates (1, 12)));
                      content_type := "application/json";
                      cache_control := None;
                      last_modified := None |}) as Hout by reflexivity.
  split; [exact Hout|].
  destruct (response_only_from_engine unlimited_request _ Hout)
    as (requests & limit & cands & _ & _ & _ & Hengine & Hbody & _).
  exists requests, limit, cands. split; [exact Hengine | exact Hbody].
Defined.

(** ** The configuration file of the WSGI script *)

Module WsgiFacts.
Import Wsgi.

Section Platform.
Context (isspace : Ascii.ascii -> bool).
Context (os_environ : gmap string string).

Lemma lstrip_blank s : blank isspace s = true → lstrip isspace s = "".
Proof.
  induction s as [|c s IH]; simpl; [done|].
  intros [Hc Hs]%andb_prop. rewrite Hc. auto.
Qed.

Lemma rstrip_blank s : blank isspace s = true → rstrip isspace s = "".
Proof.
  induction s as [|c s IH]; simpl; [done|].
  intros [Hc Hs]%andb_prop. by rewrite (IH Hs), Hc.
Qed.

Lemma lstrip_blank_app l s :
  blank isspace l = true → lstrip isspace (l +:+ s) = lstrip isspace s.
Proof.
  induction l as [|c l IH]; simpl; [done|].
  intros [Hc Hl]%andb_prop. rewrite Hc. auto.
Qed.

Lemma rstrip_app_blank s r :
  blank isspace r = true → rstrip isspace (s +:+ r) = rstrip isspace s.
Proof.
  intros Hr. induction s as [|c s IH]; simpl.
  - by apply rstrip_blank.
  - by rewrite IH.
Qed.

Lemma lstrip_app s r :
  lstrip isspace (s +:+ r)
  = match lstrip isspace s with
    | EmptyString => lstrip isspace r
    | rest => rest +:+ r
    end.
Proof.
  induction s as [|c s IH]; simpl; [done|].
  by destruct (isspace c).
Qed.

Lemma strip_blank_around l s r :
  blank isspace l = true → blank isspace r = true →
  strip isspace (l +:+ s +:+ r) = strip isspace s.
Proof.
  intros Hl Hr. unfold strip. rewrite (lstrip_blank_app _ _ Hl), lstrip_app.
  destruct (lstrip isspace s) as [|c rest] eqn:Hs.
  - by rewrite (lstrip_blank _ Hr).
  - by rewrite (rstrip_app_blank _ _ Hr).
Qed.

(** X14: without [OS_PLACEMENT_CONFIG_DIR] in the environment looked at
    (the one given, or [os.environ] when none is given) the configuration
    file is [/etc/nova/nova.conf]. *)
Theorem default_config_file (env : option (gmap string string)) :
  isspace "/" = false → isspace "a" = false →
  default os_environ env !! "OS_PLACEMENT_CONFIG_DIR" = None →
  _get_config_file isspace os_environ env = "/etc/nova/nova.conf".
Proof.
  intros Hsep Ha Hmissing. unfold _get_config_file. rewrite Hmissing. simpl.
  unfold strip. simpl. rewrite Hsep. simpl. by rewrite Ha.
Qed.

(** X15: whitespace around the directory does not count: two settings of
    [OS_PLACEMENT_CONFIG_DIR] that differ in leading and trailing
    whitespace only name the same configuration file. *)
Theorem config_dir_is_stripped (env : gmap string string) (l d r : string) :
  blank isspace l = true → blank isspace r = true →
  _get_config_file isspace os_environ
    (Some (<["OS_PLACEMENT_CONFIG_DIR" := l +:+ d +:+ r]> env))
  = _get_config_file isspace os_environ
      (Some (<["OS_PLACEMENT_CONFIG_DIR" := d]> env)).
Proof.
  intros Hl Hr. unfold _get_config_file. simpl.
  rewrite !lookup_insert_eq. simpl. by rewrite strip_blank_around.
Qed.

(** X16: a directory that is empty or all whitespace is not replaced by
    the default: the configuration file is then the relative path
    [nova.conf]. *)
Theorem blank_config_dir_is_relative (env : option (gmap string string))
    (d : string) :
  default os_environ env !! "OS_PLACEMENT_CONFIG_DIR" = Some d →
  blank isspace d = true →
  _get_config_file isspace os_environ env = "nova.conf".
Proof.
  intros Hd Hblank. unfold _get_config_file. rewrite Hd. simpl.
  unfold strip. by rewrite (lstrip_blank _ Hblank).
Qed.

(** X17: otherwise the file is [nova.conf] in the stripped directory, with
    one separator put between the two unless the directory ends with one. *)
Theorem config_file_in_directory (env : option (gmap string string))
    (d : string) :
  default os_environ env !! "OS_PLACEMENT_CONFIG_DIR" = Some d →
  strip isspace d ≠ "" →
  _get_config_file isspace os_environ env
  = if endswith_sep (strip isspace d)
    then strip isspace d +:+ "nova.conf"
    else strip isspace d +:+ "/nova.conf".
Proof.
  intros Hd Hne. unfold _get_config_file. rewrite Hd. simpl.
  unfold join. simpl. rewrite bool_decide_false by done. simpl.
  by destruct (endswith_sep _).
Qed.

End Platform.

(** X14 at work, with the whitespace of a Python 2 string. *)
Lemma default_config_file_witness :
  (∅ : gmap string string) !! "OS_PLACEMENT_CONFIG_DIR" = None
  ∧ _get_config_file ascii_whitespace ∅ None = "/etc/nova/nova.conf".
Proof.
  assert (default (∅ : gmap string string) None !! "OS_PLACEMENT_CONFIG_DIR"
          = None) as Hmissing by reflexivity.
  split; [exact Hmissing|].
  exact (default_config_file ascii_whitespace ∅ None eq_refl eq_refl Hmissing).
Defined.

(** X15 at work: [" /srv/placement\n"] and ["/srv/placement"]. *)
Lemma config_dir_is_stripped_witness :
  blank ascii_whitespace " " = true
  ∧ blank ascii_whitespace (String (Ascii.ascii_of_nat 10) "") = true
  ∧ _get_config_file ascii_whitespace ∅
      (Some (<["OS_PLACEMENT_CONFIG_DIR" :=
                 " " +:+ "/srv/placement" +:+ String (Ascii.ascii_of_nat 10) ""]> ∅))
    = _get_config_file ascii_whitespace ∅
        (Some (<["OS_PLACEMENT_CONFIG_DIR" := "/srv/placement"]> ∅)).
Proof.
  do 2 (split; [reflexivity|]).
  exact (config_dir_is_stripped ascii_whitespace ∅ ∅ " " "/srv/placement"
           (String (Ascii.ascii_of_nat 10) "") eq_refl eq_refl).
Defined.

(** X16 at work: [OS_PLACEMENT_CONFIG_DIR] set to two spaces. *)
Lemma blank_config_dir_is_relative_witness :
  blank ascii_whitespace "  " = true
  ∧ _get_config_file ascii_whitespace
      (<["OS_PLACEMENT_CONFIG_DIR" := "  "]> ∅) None
    = "nova.conf".
Proof.
  split; [reflexivity|].
  apply (blank_config_dir_is_relative ascii_whitespace
           (<["OS_PLACEMENT_CONFIG_DIR" := "  "]> ∅) None "  ").
  - simpl. apply lookup_insert_eq.
  - reflexivity.
Defined.

(** X17 at work: a directory given with its trailing separator. *)
Lemma config_file_in_directory_witness :
  strip ascii_whitespace "/srv/placement/ " ≠ ""
  ∧ _get_config_file ascii_whitespace ∅
      (Some (<["OS_PLACEMENT_CONFIG_DIR" := "/srv/placement/ "]> ∅))
    = "/srv/placement/nova.conf".
Proof.
  assert (strip ascii_whitespace "/srv/placement/ " ≠ "") as Hne
    by (vm_compute; discriminate).
  split; [exact Hne|].
  rewrite (config_file_in_directory ascii_whitespace ∅
             (Some (<["OS_PLACEMENT_CONFIG_DIR" := "/srv/placement/ "]> ∅))
             "/srv/placement/ " (lookup_insert_eq _ _ _) Hne).
  reflexivity.
Defined.

End WsgiFacts.
